(** * fastlabio: camera and motor facade

    A shallow embedding of [fastlabio/camera.py] and [fastlabio/motor.py]:
    the two connection providers (generator dependencies), the command
    endpoints and the camera streaming loop, together with the properties
    of their error handling and of their clean-up.

    Python code runs here in a small monad [M]: a computation reads the
    history of what has happened so far and returns an outcome together with
    the events it emitted itself, in the order in which they happened.  Events are the calls made on the
    collaborators (camera and motor clients, the WebSocket) and the log
    lines.  What a collaborator answers is a function of the history, so a
    client may answer differently from one call to the next. *)

From Stdlib Require Import String List ZArith QArith Bool Floats DecimalString Lia.
From Stdlib Require Import Init.Byte.
Import ListNotations.

Local Close Scope Q_scope.
Local Open Scope string_scope.
Local Open Scope list_scope.

(** ** Python values and exceptions *)

(** Instances of Python's [Exception].  The three first classes are the ones
    the code raises or discriminates on; [PyError cls msg] is any other
    exception, with the name of its class and its message. *)
Inductive exn : Type :=
| HTTPException (status_code : Z) (detail : string)
| TimeoutError
| WebSocketDisconnect
| PyError (cls : string) (msg : string).

(** How a computation ends: it returns, it raises, or it has not finished
    (a loop still running when the observation stops). *)
Inductive outcome (A : Type) : Type :=
| Return (a : A)
| Raise (e : exn)
| Pending.
Arguments Return {A} a.
Arguments Raise {A} e.
Arguments Pending {A}.

(** A 2-D pixel array. *)
Definition ndarray : Type := list (list Z).

(** JSON: the request and response bodies of this service are flat objects
    of scalar values. *)
Inductive value : Type :=
| JNull
| JBool (b : bool)
| JNumber (x : float)
| JString (s : string).

Definition json : Type := list (string * value).

(** ** Events *)

Inductive level : Type := INFO | WARNING | ERROR.

Inductive call : Type :=
| pysilico_camera (host : string) (port : Z)
| camera_getFrameForDisplay (n : Z)
| frame_toNumpyArray
| camera_getFutureFrames (n : Z)
| camera_setExposureTime (v : float)
| camera_set_gain (v : float)
| camera_close
| plico_motor_motor (host : string) (port : Z) (axis : Z)
| motor_move (v : float)
| motor_get_position
| motor_set_speed (v : float)
| motor_close
| websocket_accept
| websocket_send_bytes (data : list byte)
| websocket_close (code : Z) (reason : string).

Inductive event : Type :=
| Log (lvl : level) (msg : string)
| Call (c : call).

(** What has happened so far, the most recent event first. *)
Definition history : Type := list event.

(** The history once the events [d] have happened, in this order. *)
Definition extend (h : history) (d : list event) : history := rev_append d h.

(** ** The monad *)

Definition M (A : Type) : Type := history -> outcome A * list event.

(** The answer of a collaborator to a call, given what happened before. *)
Definition ext (A : Type) : Type := history -> outcome A.

Definition ret {A} (a : A) : M A := fun _ => (Return a, []).

Definition raise {A} (e : exn) : M A := fun _ => (Raise e, []).

(** [after d r]: the result [r] of a computation that ran after [d] was emitted. *)
Definition after {A} (d : list event) (r : outcome A * list event) : outcome A * list event :=
  (fst r, d ++ snd r).

Definition bind {A B} (m : M A) (f : A -> M B) : M B :=
  fun h =>
    match m h with
    | (Return a, d) => after d (f a (extend h d))
    | (Raise e, d) => (Raise e, d)
    | (Pending, d) => (Pending, d)
    end.

Declare Scope py_scope.
Delimit Scope py_scope with py.
Notation "x <- m ;; k" := (bind m (fun x => k))
  (at level 61, m at next level, right associativity) : py_scope.
Notation "m ;; k" := (bind m (fun _ => k))
  (at level 61, right associativity) : py_scope.
Local Open Scope py_scope.

(** [try: m except Exception as e: handler e] *)
Definition try_except {A} (m : M A) (handler : exn -> M A) : M A :=
  fun h =>
    match m h with
    | (Raise e, d) => after d (handler e (extend h d))
    | r => r
    end.

(** [try: m finally: fin].  The [finally] block runs when [m] returns and
    when it raises; what it raises itself replaces the outcome of [m]. *)
Definition try_finally {A} (m : M A) (fin : M unit) : M A :=
  fun h =>
    match m h with
    | (Pending, d) => (Pending, d)
    | (o, d) =>
        match fin (extend h d) with
        | (Return _, d') => (o, d ++ d')
        | (Raise e, d') => (Raise e, d ++ d')
        | (Pending, d') => (Pending, d ++ d')
        end
    end.

(** Runs [m] and hands its outcome over as a value. *)
Definition attempt {A} (m : M A) : M (A + exn) :=
  fun h =>
    match m h with
    | (Return a, d) => (Return (inl a), d)
    | (Raise e, d) => (Return (inr e), d)
    | (Pending, d) => (Pending, d)
    end.

(** A call on a collaborator: the event is recorded, the answer is the
    collaborator's. *)
Definition invoke {A} (c : call) (answer : ext A) : M A :=
  fun h => (answer h, [Call c]).

(** The result of a pure library function. *)
Definition lift {A} (o : outcome A) : M A := fun _ => (o, []).

Definition logger_info (msg : string) : M unit := fun _ => (Return tt, [Log INFO msg]).
Definition logger_warning (msg : string) : M unit := fun _ => (Return tt, [Log WARNING msg]).
Definition logger_error (msg : string) : M unit := fun _ => (Return tt, [Log ERROR msg]).

(** Attribute access [obj.name] on a value that may be [None]. *)
Definition attr {H A} (obj : option H) (name : string) (k : H -> M A) : M A :=
  match obj with
  | Some o => k o
  | None => raise (PyError "AttributeError"
                     ("'NoneType' object has no attribute '" ++ name ++ "'"))
  end.

(** The decimal text of an integer in an f-string. *)
Definition str_int (z : Z) : string := NilZero.string_of_int (Z.to_int z).

(** Truth value of a handle: [None] is false, a client object is true. *)
Definition truthy {H} (obj : option H) : bool :=
  match obj with Some _ => true | None => false end.

(** ** [fastapi.status]

    The names the module defines (it re-exports [starlette.status]), as far
    as this code is concerned: the HTTP 500 code and the WebSocket close
    codes.  Any other name raises [AttributeError] when it is looked up. *)
Module status.
Definition names : list (string * Z) :=
  [ ("HTTP_422_UNPROCESSABLE_ENTITY", 422%Z);
    ("HTTP_500_INTERNAL_SERVER_ERROR", 500%Z);
    ("WS_1000_NORMAL_CLOSURE", 1000%Z);
    ("WS_1001_GOING_AWAY", 1001%Z);
    ("WS_1002_PROTOCOL_ERROR", 1002%Z);
    ("WS_1003_UNSUPPORTED_DATA", 1003%Z);
    ("WS_1005_NO_STATUS_RCVD", 1005%Z);
    ("WS_1006_ABNORMAL_CLOSURE", 1006%Z);
    ("WS_1007_INVALID_FRAME_PAYLOAD_DATA", 1007%Z);
    ("WS_1008_POLICY_VIOLATION", 1008%Z);
    ("WS_1009_MESSAGE_TOO_BIG", 1009%Z);
    ("WS_1010_MANDATORY_EXT", 1010%Z);
    ("WS_1011_INTERNAL_ERROR", 1011%Z);
    ("WS_1012_SERVICE_RESTART", 1012%Z);
    ("WS_1013_TRY_AGAIN_LATER", 1013%Z);
    ("WS_1014_BAD_GATEWAY", 1014%Z);
    ("WS_1015_TLS_HANDSHAKE", 1015%Z) ].

Fixpoint lookup (l : list (string * Z)) (name : string) : option Z :=
  match l with
  | [] => None
  | (n, v) :: l' => if String.eqb n name then Some v else lookup l' name
  end.

Definition getattr (name : string) : M Z :=
  match lookup names name with
  | Some v => ret v
  | None => raise (PyError "AttributeError"
                     ("module 'fastapi.status' has no attribute '" ++ name ++ "'"))
  end.
End status.

(** ** Collaborators *)

Module pysilico.

(** The object [camera.getFrameForDisplay] returns. *)
Record FrameObject : Type := {
  toNumpyArray : ext ndarray
}.

(** The pysilico camera client. *)
Record Camera : Type := {
  getFrameForDisplay : Z -> ext (option FrameObject);
  getFutureFrames : Z -> ext (list ndarray);
  setExposureTime : float -> ext unit;
  set_gain : float -> ext unit
}.

End pysilico.

(** The plico_motor client; [has_close] is [hasattr(motor_instance, 'close')]. *)
Record MotorClient : Type := {
  has_close : bool;
  move : float -> ext unit;
  get_position : ext float;
  set_speed : float -> ext unit
}.

Record WebSocket : Type := {
  accept : ext unit;
  send_bytes : list byte -> ext unit;
  close : Z -> string -> ext unit
}.

(** The libraries the two modules import.  [str] is the text of an
    exception in an f-string, [str_float] that of a float; [float_field] is
    pydantic's reading of a JSON value as a [float] field ([None] when the
    value has the wrong type); a blocking call run under [asyncio.wait_for]
    answers with the seconds it takes as well. *)
Class Libraries : Type := {
  str : exn -> string;
  str_float : float -> string;
  float_field : value -> option float;
  cv2_imencode : string -> ndarray -> outcome (bool * list byte);
  pysilico_camera_fn : string -> Z -> ext (option pysilico.Camera);
  plico_motor_motor_fn : string -> Z -> Z -> history -> Q * outcome (option MotorClient)
}.

(** [await asyncio.wait_for(asyncio.to_thread(f, ...), timeout)]: the answer
    of the call when it comes within [timeout] seconds, [TimeoutError]
    otherwise. *)
Definition wait_for {A} (c : call) (answer : history -> Q * outcome A) (timeout : Q) : M A :=
  fun h =>
    let (seconds, o) := answer h in
    match o with
    | Pending => (Raise TimeoutError, [Call c])
    | _ => if Qle_bool seconds timeout then (o, [Call c])
           else (Raise TimeoutError, [Call c])
    end.

(** ** What an endpoint returns, and what the client receives *)

Inductive endpoint_result : Type :=
| Response (content : list byte) (media_type : string)
| Dict (fields : json).

(** One entry of the detail of a validation error: the place and the kind. *)
Inductive error_type : Type :=
| missing
| float_parsing
| greater_than (bound : float)
| greater_than_equal (bound : float).

Record validation_error : Type := {
  loc : list string;
  type_ : error_type
}.

Inductive http_body : Type :=
| BytesBody (content : list byte)
| JsonBody (fields : json)
| ValidationDetail (errors : list validation_error)
| PlainText (text : string).

Record http_response : Type := {
  status_code : Z;
  media_type : string;
  body : http_body
}.

(** ** Request validation (pydantic models) *)

(** [body[name]]: as in the [dict] Python builds from a JSON object, the
    last value given to a key is the one it has. *)
Fixpoint get_field (name : string) (body : json) : option value :=
  match body with
  | [] => None
  | (n, v) :: body' =>
      match get_field name body' with
      | Some v' => Some v'
      | None => if String.eqb n name then Some v else None
      end
  end.

(** [Field(..., gt=bound)] and [Field(..., ge=bound)] *)
Definition gt (bound x : float) : option error_type :=
  if (bound <? x)%float then None else Some (greater_than bound).

Definition ge (bound x : float) : option error_type :=
  if (bound <=? x)%float then None else Some (greater_than_equal bound).

Definition unconstrained (x : float) : option error_type := None.

Section Service.
Context {L : Libraries}.

(** A model with one required [float] field [name]. *)
Definition validate_float_model (name : string) (constraint : float -> option error_type)
    (body : json) : list validation_error + float :=
  match get_field name body with
  | None => inl [ {| loc := ["body"; name]; type_ := missing |} ]
  | Some v =>
      match float_field v with
      | None => inl [ {| loc := ["body"; name]; type_ := float_parsing |} ]
      | Some x =>
          match constraint x with
          | Some t => inl [ {| loc := ["body"; name]; type_ := t |} ]
          | None => inr x
          end
      end
  end.

(** ** camera.py *)

Definition CAMERA_HOST : string := "localhost".
Definition CAMERA_PORT : Z := 7100.

Record ExposureSettings : Type := { exposure_time_us : float }.
Record GainSettings : Type := { gain : float }.

Definition ExposureSettings_validate (body : json) : list validation_error + ExposureSettings :=
  match validate_float_model "exposure_time_us" (gt 0) body with
  | inl errors => inl errors
  | inr x => inr {| exposure_time_us := x |}
  end.

Definition GainSettings_validate (body : json) : list validation_error + GainSettings :=
  match validate_float_model "gain" (ge 0) body with
  | inl errors => inl errors
  | inr x => inr {| gain := x |}
  end.

(** The provider [get_pysilico_camera] is a generator with one [yield].
    [use camera] is what happens while it is suspended there: it returns
    when the generator is resumed, and raises the exception that is thrown
    into the generator. *)

(** [except Exception as e:] (lines 57-62) *)
Definition camera_except {A} (e : exn) : M A :=
  logger_error ("Error connecting to camera: " ++ str e) ;;
  status_code <- status.getattr "HTTP_500_INTERNAL_SERVER_ERROR" ;;
  raise (HTTPException status_code ("Could not connect to camera: " ++ str e)).

(** [finally:] (lines 63-67); the call of [camera.close] is commented out. *)
Definition camera_finally (camera : option pysilico.Camera) : M unit :=
  if truthy camera then logger_info "Closing camera connection." else ret tt.

Definition get_pysilico_camera {A} (use : option pysilico.Camera -> M A) : M A :=
  (* camera = None *)
  r <- attempt
         (logger_info ("Attempting to connect to camera at "
                         ++ CAMERA_HOST ++ ":" ++ str_int CAMERA_PORT) ;;
          invoke (pysilico_camera CAMERA_HOST CAMERA_PORT)
                 (pysilico_camera_fn CAMERA_HOST CAMERA_PORT)) ;;
  match r with
  | inr e =>
      (* the call raised: [camera] is still [None] *)
      try_finally (camera_except e) (camera_finally None)
  | inl camera =>
      try_finally
        (try_except
           (logger_info "Camera connection successful." ;;
            (* yield camera *)
            use camera)
           camera_except)
        (camera_finally camera)
  end.

(** [GET /frame] *)
Definition get_single_frame (camera : option pysilico.Camera) : M endpoint_result :=
  try_except
    (logger_info "Acquiring single frame from camera." ;;
     frame_object <- attr camera "getFrameForDisplay" (fun c =>
                       invoke (camera_getFrameForDisplay 1) (pysilico.getFrameForDisplay c 1)) ;;
     match frame_object with
     | None =>
         logger_error "No frames received from camera." ;;
         status_code <- status.getattr "HTTP_500_INTERNAL_SERVER_ERROR" ;;
         raise (HTTPException status_code "No frames received from camera")
     | Some fo =>
         frame <- invoke frame_toNumpyArray (pysilico.toNumpyArray fo) ;;
         logger_info "Encoding frame to JPEG." ;;
         encoded <- lift (cv2_imencode ".jpg" frame) ;;
         let '(is_success, buffer) := encoded in
         if negb is_success then
           logger_error "Could not encode frame to JPEG." ;;
           status_code <- status.getattr "HTTP_500_INTERNAL_SERVER_ERROR" ;;
           raise (HTTPException status_code "Could not encode frame to JPEG")
         else
           let jpeg_bytes := buffer in
           logger_info "Single frame acquired and encoded successfully." ;;
           ret (Response jpeg_bytes "image/jpeg")
     end)
    (fun e =>
       logger_error ("Error acquiring or encoding frame: " ++ str e) ;;
       status_code <- status.getattr "HTTP_500_INTERNAL_SERVER_ERROR" ;;
       raise (HTTPException status_code ("Error acquiring or encoding frame: " ++ str e))).

(** [PUT /exposure] *)
Definition set_exposure (settings : ExposureSettings) (camera : option pysilico.Camera)
  : M endpoint_result :=
  try_except
    (logger_info ("Attempting to set exposure time to "
                    ++ str_float (exposure_time_us settings) ++ " us.") ;;
     attr camera "setExposureTime" (fun c =>
       invoke (camera_setExposureTime (exposure_time_us settings))
              (pysilico.setExposureTime c (exposure_time_us settings))) ;;
     logger_info "Exposure time set successfully." ;;
     ret (Dict [("message", JString ("Exposure time set to "
                    ++ str_float (exposure_time_us settings) ++ " us"))]))
    (fun e =>
       logger_error ("Error setting exposure time: " ++ str e) ;;
       status_code <- status.getattr "HTTP_500_INTERNAL_SERVER_ERROR" ;;
       raise (HTTPException status_code ("Could not set exposure time: " ++ str e))).

(** [PUT /gain] *)
Definition set_gain (settings : GainSettings) (camera : option pysilico.Camera)
  : M endpoint_result :=
  try_except
    (logger_info ("Attempting to set gain to " ++ str_float (gain settings) ++ ".") ;;
     attr camera "set_gain" (fun c =>
       invoke (camera_set_gain (gain settings)) (pysilico.set_gain c (gain settings))) ;;
     logger_info "Gain set successfully." ;;
     ret (Dict [("message", JString ("Gain set to " ++ str_float (gain settings)))]))
    (fun e =>
       logger_error ("Error setting gain: " ++ str e) ;;
       status_code <- status.getattr "HTTP_500_INTERNAL_SERVER_ERROR" ;;
       raise (HTTPException status_code ("Could not set gain: " ++ str e))).

(** [WS /ws/camera/stream] *)

(** How one pass through the body of [while True:] ends. *)
Inductive loop_ctl : Type :=
| Continue
| Break_disconnect
| Break_error.

(** Lines 192-209, the body of the inner [try]. *)
Definition stream_try (websocket : WebSocket) (camera : option pysilico.Camera) : M loop_ctl :=
  frames <- attr camera "getFutureFrames" (fun c =>
              invoke (camera_getFutureFrames 1) (pysilico.getFutureFrames c 1)) ;;
  match frames with
  | [] =>
      logger_warning "No frames received in WebSocket stream loop." ;;
      ret Continue
  | frame :: _ =>
      encoded <- lift (cv2_imencode ".jpg" frame) ;;
      let '(is_success, buffer) := encoded in
      if negb is_success then
        logger_error "Could not encode frame to JPEG in WebSocket stream." ;;
        ret Continue
      else
        let jpeg_bytes := buffer in
        invoke (websocket_send_bytes jpeg_bytes) (send_bytes websocket jpeg_bytes) ;;
        ret Continue
  end.

(** Lines 214-221, the two [except] clauses. *)
Definition stream_except (websocket : WebSocket) (e : exn) : M loop_ctl :=
  match e with
  | WebSocketDisconnect =>
      logger_info "WebSocket disconnected from camera stream." ;;
      ret Break_disconnect
  | _ =>
      logger_error ("Error during WebSocket camera stream: " ++ str e) ;;
      code <- status.getattr "WS_500_INTERNAL_ERROR" ;;
      invoke (websocket_close code ("Server error: " ++ str e))
             (close websocket code ("Server error: " ++ str e)) ;;
      ret Break_error
  end.

Definition stream_iteration (websocket : WebSocket) (camera : option pysilico.Camera) : M loop_ctl :=
  try_except (stream_try websocket camera) (stream_except websocket).

(** [while True:], observed for at most [fuel] iterations; the result says
    through which [break] the loop was left. *)
Fixpoint stream_loop (fuel : nat) (websocket : WebSocket) (camera : option pysilico.Camera)
  : M loop_ctl :=
  match fuel with
  | O => fun _ => (Pending, [])
  | S fuel' =>
      c <- stream_iteration websocket camera ;;
      match c with
      | Continue => stream_loop fuel' websocket camera
      | _ => ret c
      end
  end.

Definition websocket_camera_stream (fuel : nat) (websocket : WebSocket)
    (camera : option pysilico.Camera) : M unit :=
  invoke websocket_accept (accept websocket) ;;
  logger_info "WebSocket connection accepted for camera stream." ;;
  try_finally
    (stream_loop fuel websocket camera ;; ret tt)
    (logger_info "Exiting WebSocket camera stream.").

(** ** motor.py *)

Definition MOTOR_HOST : string := "localhost".
Definition MOTOR_PORT : Z := 7200.

Record MotorMoveRequest : Type := { position : float }.
Record MotorSpeedRequest : Type := { speed : float }.

Definition MotorMoveRequest_validate (body : json) : list validation_error + MotorMoveRequest :=
  match validate_float_model "position" unconstrained body with
  | inl errors => inl errors
  | inr x => inr {| position := x |}
  end.

Definition MotorSpeedRequest_validate (body : json) : list validation_error + MotorSpeedRequest :=
  match validate_float_model "speed" (ge 0) body with
  | inl errors => inl errors
  | inr x => inr {| speed := x |}
  end.

(** Lines 63-76: the connection attempt under its timeout. *)
Definition motor_connection_attempt : M (option MotorClient) :=
  let timeout_seconds := 10%Q in
  try_except
    (wait_for (plico_motor_motor MOTOR_HOST MOTOR_PORT 1)
              (plico_motor_motor_fn MOTOR_HOST MOTOR_PORT 1)
              timeout_seconds)
    (fun e =>
       match e with
       | TimeoutError =>
           logger_error ("Timeout while attempting to connect to motor at "
                           ++ MOTOR_HOST ++ ":" ++ str_int MOTOR_PORT) ;;
           status_code <- status.getattr "HTTP_500_INTERNAL_SERVER_ERROR" ;;
           raise (HTTPException status_code
                    ("Timeout connecting to motor server on " ++ MOTOR_HOST ++ ":"
                       ++ str_int MOTOR_PORT ++ ". Server might be unresponsive."))
       | _ => raise e
       end).

(** Lines 61-86: the body of the outer [try] up to the [yield]. *)
Definition motor_connect : M (option MotorClient) :=
  logger_info ("Attempting to connect to motor at "
                 ++ MOTOR_HOST ++ ":" ++ str_int MOTOR_PORT) ;;
  motor_instance <- motor_connection_attempt ;;
  match motor_instance with
  | None =>
      logger_error "plico_motor.motor() returned None. Check plico_motor_server logs for details." ;;
      status_code <- status.getattr "HTTP_500_INTERNAL_SERVER_ERROR" ;;
      raise (HTTPException status_code
               "Failed to obtain motor client from server. Check server logs.")
  | Some m =>
      logger_info (if has_close m
                   then "Motor connection successful (using real client)."
                   else "Motor connection successful (client may not have close method).") ;;
      ret motor_instance
  end.

(** [except Exception as e:] (lines 88-94) *)
Definition motor_except {A} (e : exn) : M A :=
  logger_error ("Error connecting to motor: " ++ str e) ;;
  status_code <- status.getattr "HTTP_500_INTERNAL_SERVER_ERROR" ;;
  raise (HTTPException status_code ("Could not connect to motor: " ++ str e)).

(** [finally:] (lines 95-99); the body of the [if] is [pass]. *)
Definition motor_finally (motor_instance : option MotorClient) : M unit :=
  match motor_instance with
  | Some m => if has_close m then ret tt else ret tt
  | None => ret tt
  end.

Definition get_plico_motor {A} (use : option MotorClient -> M A) : M A :=
  (* motor_instance = None *)
  r <- attempt motor_connect ;;
  match r with
  | inr e =>
      (* raised before the yield: [motor_instance] is [None] *)
      try_finally (motor_except e) (motor_finally None)
  | inl motor_instance =>
      try_finally
        (try_except
           ((* yield motor_instance *)
            use motor_instance)
           motor_except)
        (motor_finally motor_instance)
  end.

(** [PUT /move] *)
Definition move_motor (request : MotorMoveRequest) (motor : option MotorClient)
  : M endpoint_result :=
  try_except
    (logger_info ("Received request to move motor to position: "
                    ++ str_float (position request)) ;;
     attr motor "move" (fun m =>
       invoke (motor_move (position request)) (move m (position request))) ;;
     logger_info "Motor move command sent successfully." ;;
     ret (Dict [("message", JString ("Motor moving to position: "
                                        ++ str_float (position request)))]))
    (fun e =>
       logger_error ("Error moving motor: " ++ str e) ;;
       status_code <- status.getattr "HTTP_500_INTERNAL_SERVER_ERROR" ;;
       raise (HTTPException status_code ("Could not move motor: " ++ str e))).

(** [GET /position] *)
Definition get_motor_position (motor : option MotorClient) : M endpoint_result :=
  try_except
    (logger_info "Received request to get motor position." ;;
     position <- attr motor "get_position" (fun m =>
                   invoke motor_get_position (get_position m)) ;;
     logger_info ("Retrieved motor position: " ++ str_float position) ;;
     ret (Dict [("position", JNumber position)]))
    (fun e =>
       logger_error ("Error getting motor position: " ++ str e) ;;
       status_code <- status.getattr "HTTP_500_INTERNAL_SERVER_ERROR" ;;
       raise (HTTPException status_code ("Could not get motor position: " ++ str e))).

(** [PUT /speed] *)
Definition set_motor_speed (request : MotorSpeedRequest) (motor : option MotorClient)
  : M endpoint_result :=
  try_except
    (logger_info ("Received request to set motor speed to: "
                    ++ str_float (speed request)) ;;
     attr motor "set_speed" (fun m =>
       invoke (motor_set_speed (speed request)) (set_speed m (speed request))) ;;
     logger_info "Motor speed set command sent successfully." ;;
     ret (Dict [("message", JString ("Motor speed set to: "
                                        ++ str_float (speed request)))]))
    (fun e =>
       logger_error ("Error setting motor speed: " ++ str e) ;;
       status_code <- status.getattr "HTTP_500_INTERNAL_SERVER_ERROR" ;;
       raise (HTTPException status_code ("Could not set motor speed: " ++ str e))).

(** ** Routing

    What FastAPI does with a route whose endpoint has a generator
    dependency: the dependency is entered first; then the body, if the
    route has one, is validated, and the endpoint runs only when the body is
    valid; what the endpoint raises is thrown into the generator at its
    [yield]; once the generator has finished, the validation error, the
    value of the endpoint or the exception becomes the response. *)

Definition render (r : endpoint_result) : http_response :=
  match r with
  | Response content mt =>
      {| status_code := 200; media_type := mt; body := BytesBody content |}
  | Dict fields =>
      {| status_code := 200; media_type := "application/json"; body := JsonBody fields |}
  end.

Definition validation_response (errors : list validation_error) : http_response :=
  {| status_code := 422; media_type := "application/json"; body := ValidationDetail errors |}.

Definition error_response (e : exn) : http_response :=
  match e with
  | HTTPException code detail =>
      {| status_code := code; media_type := "application/json";
         body := JsonBody [("detail", JString detail)] |}
  | _ =>
      {| status_code := 500; media_type := "text/plain";
         body := PlainText "Internal Server Error" |}
  end.

Definition route {H B} (dependency : (option H -> M (list validation_error + endpoint_result))
                                     -> M (list validation_error + endpoint_result))
    (validated : list validation_error + B)
    (endpoint : B -> option H -> M endpoint_result) : M http_response :=
  r <- attempt
         (dependency (fun handle =>
            match validated with
            | inl errors => ret (inl errors)
            | inr request => x <- endpoint request handle ;; ret (inr x)
            end)) ;;
  ret match r with
      | inl (inl errors) => validation_response errors
      | inl (inr x) => render x
      | inr e => error_response e
      end.

(** The routes of [camera_router] and [motor_router]. *)
Inductive request : Type :=
| GET_frame
| PUT_exposure (body : json)
| PUT_gain (body : json)
| PUT_move (body : json)
| GET_position
| PUT_speed (body : json).

Definition app (req : request) : M http_response :=
  match req with
  | GET_frame =>
      route get_pysilico_camera (inr tt) (fun _ => get_single_frame)
  | PUT_exposure body =>
      route get_pysilico_camera (ExposureSettings_validate body) set_exposure
  | PUT_gain body =>
      route get_pysilico_camera (GainSettings_validate body) set_gain
  | PUT_move body =>
      route get_plico_motor (MotorMoveRequest_validate body) move_motor
  | GET_position =>
      route get_plico_motor (inr tt) (fun _ => get_motor_position)
  | PUT_speed body =>
      route get_plico_motor (MotorSpeedRequest_validate body) set_motor_speed
  end.

(** The streaming connection: the dependency, then the endpoint. *)
Definition camera_stream (fuel : nat) (websocket : WebSocket) : M unit :=
  get_pysilico_camera (websocket_camera_stream fuel websocket).

End Service.

(** ** Reading a trace *)

Definition calls (d : list event) : list call :=
  flat_map (fun ev => match ev with Call c => [c] | Log _ _ => [] end) d.

Definition is_connection (c : call) : bool :=
  match c with
  | pysilico_camera _ _ | plico_motor_motor _ _ _ => true
  | _ => false
  end.

(** The release operation of a handle. *)
Definition is_release (c : call) : bool :=
  match c with
  | camera_close | motor_close => true
  | _ => false
  end.

Definition is_send (c : call) : bool :=
  match c with websocket_send_bytes _ => true | _ => false end.

Definition is_close_frame (c : call) : bool :=
  match c with websocket_close _ _ => true | _ => false end.

(** The commands sent to an instrument once it is connected. *)
Definition is_command (c : call) : bool :=
  match c with
  | camera_getFrameForDisplay _ | frame_toNumpyArray | camera_getFutureFrames _
  | camera_setExposureTime _ | camera_set_gain _
  | motor_move _ | motor_get_position | motor_set_speed _ => true
  | _ => false
  end.

Definition count (p : call -> bool) (d : list event) : nat :=
  length (filter p (calls d)).

(** The one thing the clean-up block of the camera provider does. *)
Definition is_camera_cleanup (ev : event) : bool :=
  match ev with
  | Log INFO msg => String.eqb msg "Closing camera connection."
  | _ => false
  end.

Definition cleanups (d : list event) : nat := length (filter is_camera_cleanup d).

Definition status_code_of (o : outcome http_response) : option Z :=
  match o with Return resp => Some (status_code resp) | _ => None end.

(** ** Test doubles *)

(** The text of an exception as Starlette and Python give it. *)
Definition starlette_str (e : exn) : string :=
  match e with
  | HTTPException code detail => str_int code ++ ": " ++ detail
  | TimeoutError => EmptyString
  | WebSocketDisconnect => EmptyString
  | PyError _ msg => msg
  end.

(** Enough of [float.__str__] for the values of the test suite. *)
Definition show_float (x : float) : string :=
  if (x =? 50)%float then "50.0"
  else if (x =? 10)%float then "10.0"
  else if (x =? 100)%float then "100.0"
  else if (x =? 5000)%float then "5000.0"
  else if (x =? 2.5)%float then "2.5"
  else "?".

Definition strict_float (v : value) : option float :=
  match v with JNumber x => Some x | _ => None end.

Definition always {A} (o : outcome A) : ext A := fun _ => o.

(** A collaborator that plays a script: its answer to the k-th call that
    satisfies [p] is the k-th entry of [script]. *)
Definition scripted {A} (p : call -> bool) (script : list (outcome A))
    (otherwise : outcome A) : ext A :=
  fun h => nth (count p h) script otherwise.

Definition zeros : ndarray := [[0; 0]; [0; 0]]%Z.
Definition blank : ndarray := [].
Definition jpeg : list byte := [xff; xd8; xff; xd9].

(** An encoder that fails on an array without rows. *)
Definition mock_imencode (ext : string) (frame : ndarray) : outcome (bool * list byte) :=
  match frame with
  | [] => Return (false, [])
  | _ => Return (true, jpeg)
  end.

Definition mock_frame_object : pysilico.FrameObject :=
  {| pysilico.toNumpyArray := always (Return zeros) |}.

Definition is_getFutureFrames (c : call) : bool :=
  match c with camera_getFutureFrames _ => true | _ => false end.

(** The camera of the test suite; [frames] is what [getFutureFrames]
    answers, call after call. *)
Definition mock_camera (frame_object : outcome (option pysilico.FrameObject))
    (frames : list (outcome (list ndarray))) : pysilico.Camera :=
  {| pysilico.getFrameForDisplay := fun _ => always frame_object;
     pysilico.getFutureFrames := fun _ => scripted is_getFutureFrames frames (Return []);
     pysilico.setExposureTime := fun _ => always (Return tt);
     pysilico.set_gain := fun _ => always (Return tt) |}.

(** The motor of the test suite: it has a [close] method and reads position 10.0. *)
Definition mock_motor : MotorClient :=
  {| has_close := true;
     move := fun _ => always (Return tt);
     get_position := always (Return 10%float);
     set_speed := fun _ => always (Return tt) |}.

(** A channel that answers its sends from a script. *)
Definition mock_websocket (sends : list (outcome unit)) : WebSocket :=
  {| accept := always (Return tt);
     send_bytes := fun _ => scripted is_send sends (Return tt);
     close := fun _ _ => always (Return tt) |}.

Definition mock_libraries (camera : outcome (option pysilico.Camera))
    (motor : Q * outcome (option MotorClient)) : Libraries :=
  {| str := starlette_str;
     str_float := show_float;
     float_field := strict_float;
     cv2_imencode := mock_imencode;
     pysilico_camera_fn := fun _ _ => always camera;
     plico_motor_motor_fn := fun _ _ _ _ => motor |}.

Definition good_camera : pysilico.Camera :=
  mock_camera (Return (Some mock_frame_object)) [].

Definition lab : Libraries :=
  mock_libraries (Return (Some good_camera)) (0.5%Q, Return (Some mock_motor)).

(** A camera for the streaming tests, and the libraries around it. *)
Definition streaming_camera (frames : list (outcome (list ndarray))) : pysilico.Camera :=
  mock_camera (Return None) frames.

Definition stream_lab (frames : list (outcome (list ndarray))) : Libraries :=
  mock_libraries (Return (Some (streaming_camera frames))) (0.5%Q, Return (Some mock_motor)).

(** The camera misses a frame, gives one that cannot be encoded, then a
    good one. *)
Definition gappy_frames : list (outcome (list ndarray)) :=
  [Return []; Return [blank]; Return [zeros]].
Definition gappy_camera : pysilico.Camera := streaming_camera gappy_frames.
Definition gappy_lab : Libraries := stream_lab gappy_frames.

(** What two failing iterations emit: a missing frame, then a frame that
    cannot be encoded. *)
Definition two_failures : list event :=
  [Call (camera_getFutureFrames 1);
   Log WARNING "No frames received in WebSocket stream loop.";
   Call (camera_getFutureFrames 1);
   Log ERROR "Could not encode frame to JPEG in WebSocket stream."].

(** A channel that takes every message. *)
Definition open_websocket : WebSocket := mock_websocket [].

(** The camera fails on the first read. *)
Definition unplugged_frames : list (outcome (list ndarray)) :=
  [Raise (PyError "RuntimeError" "camera unplugged")].
Definition unplugged_camera : pysilico.Camera := streaming_camera unplugged_frames.
Definition unplugged_lab : Libraries := stream_lab unplugged_frames.

(** The camera has a frame, and the peer is gone when it is sent. *)
Definition steady_frames : list (outcome (list ndarray)) := [Return [zeros]].
Definition steady_camera : pysilico.Camera := streaming_camera steady_frames.
Definition steady_lab : Libraries := stream_lab steady_frames.
Definition closed_websocket : WebSocket := mock_websocket [Raise WebSocketDisconnect].

(** [pysilico.camera] and [plico_motor.motor] return [None]. *)
Definition null_lab : Libraries := mock_libraries (Return None) (0.5%Q, Return None).

(** The motor server takes eleven seconds to answer. *)
Definition slow_lab : Libraries :=
  mock_libraries (Return (Some good_camera)) (11%Q, Return (Some mock_motor)).

(** The motor server refuses the connection. *)
Definition refused_lab : Libraries :=
  mock_libraries (Return (Some good_camera))
    (0.5%Q, Raise (PyError "ConnectionRefusedError" "[Errno 111] Connection refused")).

(** The camera server cannot be reached. *)
Definition dark_lab : Libraries :=
  mock_libraries (Raise (PyError "ConnectionRefusedError" "[Errno 111] Connection refused"))
    (0.5%Q, Return (Some mock_motor)).

(** Request bodies of the test suite. *)
Definition bad_exposure : json := [("exposure_time_us", JNumber (-1))].
Definition good_exposure : json := [("exposure_time_us", JNumber 5000)].
Definition good_move : json := [("position", JNumber 50)].
Definition good_speed : json := [("speed", JNumber 100)].

(** A camera that has no frame to show. *)
Definition empty_camera : pysilico.Camera := mock_camera (Return None) [].

(** * Vocabulary of the properties *)

(** The events of an endpoint: no connection, no release of a handle, and
    not the log line of the provider's clean-up. *)
Definition inner (ev : event) : bool :=
  match ev with
  | Call c => negb (is_connection c) && negb (is_release c)
  | Log _ _ => negb (is_camera_cleanup ev)
  end.

(** The contribution of one event to a count. *)
Definition tally (p : call -> bool) (ev : event) : nat := count p [ev].
Definition tally_cleanup (ev : event) : nat := cleanups [ev].

Definition quiet (d : list event) : Prop := Forall (fun ev => inner ev = true) d.

Section Vocabulary.
Context {L : Libraries}.

(** ** The camera provider *)

Definition camera_attempt : event :=
  Log INFO ("Attempting to connect to camera at " ++ CAMERA_HOST ++ ":" ++ str_int CAMERA_PORT).

(** What the provider emits before it yields. *)
Definition camera_prelude : list event :=
  [camera_attempt; Call (pysilico_camera CAMERA_HOST CAMERA_PORT);
   Log INFO "Camera connection successful."].

(** The connection call of the request that starts at [h] answers [o]. *)
Definition camera_answer (h : history) (o : outcome (option pysilico.Camera)) : Prop :=
  pysilico_camera_fn CAMERA_HOST CAMERA_PORT (camera_attempt :: h) = o.

Definition camera_cleanup (camera : option pysilico.Camera) : list event :=
  if truthy camera then [Log INFO "Closing camera connection."] else [].

(** How the provider ends, given how its suspension at [yield] ended. *)
Definition camera_exit {A} (camera : option pysilico.Camera) (r : outcome A * list event)
  : outcome A * list event :=
  match r with
  | (Return a, d) => (Return a, d ++ camera_cleanup camera)
  | (Raise e, d) =>
      (Raise (HTTPException 500 ("Could not connect to camera: " ++ str e)),
       d ++ Log ERROR ("Error connecting to camera: " ++ str e) :: camera_cleanup camera)
  | (Pending, d) => (Pending, d)
  end.

(** ** The motor provider *)

Definition motor_attempt : event :=
  Log INFO ("Attempting to connect to motor at " ++ MOTOR_HOST ++ ":" ++ str_int MOTOR_PORT).

Definition motor_call : event := Call (plico_motor_motor MOTOR_HOST MOTOR_PORT 1).

Definition motor_prelude (m : MotorClient) : list event :=
  [motor_attempt; motor_call;
   Log INFO (if has_close m
             then "Motor connection successful (using real client)."
             else "Motor connection successful (client may not have close method).")].

(** The connection call of the request that starts at [h] answers [o]
    after [seconds]. *)
Definition motor_answer (h : history) (seconds : Q) (o : outcome (option MotorClient)) : Prop :=
  plico_motor_motor_fn MOTOR_HOST MOTOR_PORT 1 (motor_attempt :: h) = (seconds, o).

Definition in_time (seconds : Q) : Prop := Qle_bool seconds 10 = true.

(** The connection attempt exceeds its bound or reports a timeout itself. *)
Definition times_out (seconds : Q) (o : outcome (option MotorClient)) : Prop :=
  Qle_bool seconds 10 = false \/ o = Pending \/ o = Raise TimeoutError.

(** The line the provider logs when the attempt is cut. *)
Definition timeout_log : event :=
  Log ERROR ("Timeout while attempting to connect to motor at "
               ++ MOTOR_HOST ++ ":" ++ str_int MOTOR_PORT).

Definition timeout_error : exn :=
  HTTPException 500
    ("Timeout connecting to motor server on " ++ MOTOR_HOST ++ ":"
       ++ str_int MOTOR_PORT ++ ". Server might be unresponsive.").

Definition no_client_error : exn :=
  HTTPException 500 "Failed to obtain motor client from server. Check server logs.".

Definition motor_exit {A} (r : outcome A * list event) : outcome A * list event :=
  match r with
  | (Raise e, d) =>
      (Raise (HTTPException 500 ("Could not connect to motor: " ++ str e)),
       d ++ [Log ERROR ("Error connecting to motor: " ++ str e)])
  | _ => r
  end.

(** ** The streaming loop *)

(** What the endpoint emits before it enters the loop. *)
Definition stream_prelude : list event :=
  [Call websocket_accept; Log INFO "WebSocket connection accepted for camera stream."].

(** The instrument returns no frame to the iteration that starts at [h]. *)
Definition no_frame (camera : pysilico.Camera) (h : history) : Prop :=
  pysilico.getFutureFrames camera 1 h = Return [].

(** The instrument returns a frame that the encoder fails to encode. *)
Definition encoding_fails (camera : pysilico.Camera) (h : history) : Prop :=
  exists frame rest buffer,
    pysilico.getFutureFrames camera 1 h = Return (frame :: rest) /\
    cv2_imencode ".jpg" frame = Return (false, buffer).

Definition frame_failure (camera : pysilico.Camera) (h : history) : Prop :=
  no_frame camera h \/ encoding_fails camera h.

(** A successful iteration: a frame, encoded to [jpeg_bytes], which the
    channel accepts. *)
Definition delivers (websocket : WebSocket) (camera : pysilico.Camera) (h : history)
    (jpeg_bytes : list byte) : Prop :=
  exists frame rest,
    pysilico.getFutureFrames camera 1 h = Return (frame :: rest) /\
    cv2_imencode ".jpg" frame = Return (true, jpeg_bytes) /\
    send_bytes websocket jpeg_bytes (Call (camera_getFutureFrames 1) :: h) = Return tt.

(** [n] iterations in a row, from [h] on, fail on their frame; [d] is what
    they emit. *)
Inductive failing_run (websocket : WebSocket) (camera : pysilico.Camera)
  : nat -> history -> list event -> Prop :=
| run_nil h : failing_run websocket camera 0 h []
| run_step n h d1 d2 :
    frame_failure camera h ->
    stream_iteration websocket (Some camera) h = (Return Continue, d1) ->
    failing_run websocket camera n (extend h d1) d2 ->
    failing_run websocket camera (S n) h (d1 ++ d2).

Definition delivery (jpeg_bytes : list byte) : list event :=
  [Call (camera_getFutureFrames 1); Call (websocket_send_bytes jpeg_bytes)].

(** What an iteration emits when the camera has no frame, and when the
    frame cannot be encoded. *)
Definition missed : list event :=
  [Call (camera_getFutureFrames 1);
   Log WARNING "No frames received in WebSocket stream loop."].

Definition not_encoded : list event :=
  [Call (camera_getFutureFrames 1);
   Log ERROR "Could not encode frame to JPEG in WebSocket stream."].

(** [n] iterations in a row, from [h] on, after each of which the peer is
    still there: the camera has no frame, or the frame cannot be encoded,
    or the frame is sent; [d] is what they emit.  The run is described by
    what the camera, the encoder and the channel answer. *)
Inductive live_run (websocket : WebSocket) (camera : pysilico.Camera)
  : nat -> history -> list event -> Prop :=
| live_nil h : live_run websocket camera 0 h []
| live_missed n h d :
    no_frame camera h ->
    live_run websocket camera n (extend h missed) d ->
    live_run websocket camera (S n) h (missed ++ d)
| live_not_encoded n h d :
    encoding_fails camera h ->
    live_run websocket camera n (extend h not_encoded) d ->
    live_run websocket camera (S n) h (not_encoded ++ d)
| live_delivered n h jpeg_bytes d :
    delivers websocket camera h jpeg_bytes ->
    live_run websocket camera n (extend h (delivery jpeg_bytes)) d ->
    live_run websocket camera (S n) h (delivery jpeg_bytes ++ d).

(** The iteration that starts at [h] reads a frame and encodes it to
    [jpeg_bytes], and the send finds the peer gone. *)
Definition peer_gone (websocket : WebSocket) (camera : pysilico.Camera) (h : history)
    (jpeg_bytes : list byte) : Prop :=
  exists frame rest,
    pysilico.getFutureFrames camera 1 h = Return (frame :: rest) /\
    cv2_imencode ".jpg" frame = Return (true, jpeg_bytes) /\
    send_bytes websocket jpeg_bytes (Call (camera_getFutureFrames 1) :: h)
      = Raise WebSocketDisconnect.

(** What that iteration emits. *)
Definition farewell (jpeg_bytes : list byte) : list event :=
  [Call (camera_getFutureFrames 1); Call (websocket_send_bytes jpeg_bytes);
   Log INFO "WebSocket disconnected from camera stream."].

(** ** Requests *)

Definition camera_route (req : request) : bool :=
  match req with
  | GET_frame | PUT_exposure _ | PUT_gain _ => true
  | _ => false
  end.

Definition cleanup_log : event := Log INFO "Closing camera connection.".

(** A request, or a streaming connection observed for [fuel] iterations. *)
Inductive exchange : Type :=
| Request (req : request)
| Connection (fuel : nat) (websocket : WebSocket).

Definition uses_camera (x : exchange) : bool :=
  match x with
  | Request req => camera_route req
  | Connection _ _ => true
  end.

(** What happens in the exchange that starts at [h], and whether it is
    still going on when the observation ends. *)
Definition happens (x : exchange) (h : history) : list event :=
  match x with
  | Request req => snd (app req h)
  | Connection fuel websocket => snd (camera_stream fuel websocket h)
  end.

Definition going_on (x : exchange) (h : history) : Prop :=
  match x with
  | Request req => fst (app req h) = Pending
  | Connection fuel websocket => fst (camera_stream fuel websocket h) = Pending
  end.

(** ** Rejected input *)

(** The body of a request with its numeric field, and the values of the
    field that the declared constraint excludes. *)
Definition numeric_field (req : request) : option (json * string * (float -> bool)) :=
  match req with
  | PUT_exposure body => Some (body, "exposure_time_us", fun x => (x <=? 0)%float)
  | PUT_gain body => Some (body, "gain", fun x => (x <? 0)%float)
  | PUT_speed body => Some (body, "speed", fun x => (x <? 0)%float)
  | PUT_move body => Some (body, "position", fun _ => false)
  | GET_frame | GET_position => None
  end.

(** The field is there, and it has the wrong type or an excluded value. *)
Definition violates_constraint (req : request) : Prop :=
  exists body name excluded v,
    numeric_field req = Some (body, name, excluded) /\
    get_field name body = Some v /\
    match float_field v with
    | None => True
    | Some x => excluded x = true
    end.

(** The connection call of the request that starts at [h] gives a handle
    (for the motor: a client, within the timeout). *)
Definition connects (req : request) (h : history) : Prop :=
  if camera_route req
  then exists camera, camera_answer h (Return camera)
  else exists seconds m, motor_answer h seconds (Return (Some m)) /\ in_time seconds.

(** ** Reading a frame *)

(** How the acquisition of [GET /frame] goes: the frame is read and encoded
    to [jpeg_bytes], or no frame is returned, or the encoder fails. *)
Inductive acquisition : Type :=
| Encoded (jpeg_bytes : list byte)
| No_frame
| Not_encoded.

(** The history at which [get_single_frame] calls the camera. *)
Definition frame_history (h : history) : history :=
  Log INFO "Acquiring single frame from camera." :: h.

Definition acquires (cam : pysilico.Camera) (h : history) (a : acquisition) : Prop :=
  match a with
  | Encoded jpeg_bytes =>
      exists fo frame,
        pysilico.getFrameForDisplay cam 1 (frame_history h) = Return (Some fo) /\
        pysilico.toNumpyArray fo (Call (camera_getFrameForDisplay 1) :: frame_history h)
          = Return frame /\
        cv2_imencode ".jpg" frame = Return (true, jpeg_bytes)
  | No_frame =>
      pysilico.getFrameForDisplay cam 1 (frame_history h) = Return None
  | Not_encoded =>
      exists fo frame buffer,
        pysilico.getFrameForDisplay cam 1 (frame_history h) = Return (Some fo) /\
        pysilico.toNumpyArray fo (Call (camera_getFrameForDisplay 1) :: frame_history h)
          = Return frame /\
        cv2_imencode ".jpg" frame = Return (false, buffer)
  end.

(** The error [get_single_frame] raises for a cause of its own. *)
Definition frame_error (cause : string) : exn :=
  HTTPException 500 ("Error acquiring or encoding frame: " ++ str (HTTPException 500 cause)).

(** The error response with this detail. *)
Definition server_error (detail : string) : http_response :=
  {| status_code := 500; media_type := "application/json";
     body := JsonBody [("detail", JString detail)] |}.

(** An encoder whose successful results are not empty. *)
Definition encoder_sound : Prop :=
  forall ext frame buffer, cv2_imencode ext frame = Return (true, buffer) -> buffer <> [].

(** ** Successful commands *)

Inductive command : Type :=
| Move (body : json) (v : float)
| Position (p : float)
| Exposure (body : json) (v : float)
| Speed (body : json) (v : float).

Definition request_of (c : command) : request :=
  match c with
  | Move body _ => PUT_move body
  | Position _ => GET_position
  | Exposure body _ => PUT_exposure body
  | Speed body _ => PUT_speed body
  end.

(** The body carries the number [v] in its field [name]. *)
Definition reads (name : string) (body : json) (v : float) : Prop :=
  exists v0, get_field name body = Some v0 /\ float_field v0 = Some v.

(** The motor is connected in time, and [answer m h'] is what the client
    [m] says at the history [h'] of the endpoint's call. *)
Definition motor_says {A} (h : history) (first_log : string)
    (answer : MotorClient -> ext A) (a : A) : Prop :=
  exists seconds m,
    motor_answer h seconds (Return (Some m)) /\ in_time seconds /\
    answer m (Log INFO first_log :: extend h (motor_prelude m)) = Return a.

Definition camera_says {A} (h : history) (first_log : string)
    (answer : pysilico.Camera -> ext A) (a : A) : Prop :=
  exists cam,
    camera_answer h (Return (Some cam)) /\
    answer cam (Log INFO first_log :: extend h camera_prelude) = Return a.

(** The command is valid, the instrument is connected and carries it out. *)
Definition succeeds (c : command) (h : history) : Prop :=
  match c with
  | Move body v =>
      reads "position" body v /\
      motor_says h ("Received request to move motor to position: " ++ str_float v)
        (fun m => move m v) tt
  | Position p =>
      motor_says h "Received request to get motor position." get_position p
  | Exposure body v =>
      reads "exposure_time_us" body v /\ (0 <? v)%float = true /\
      camera_says h ("Attempting to set exposure time to " ++ str_float v ++ " us.")
        (fun cam => pysilico.setExposureTime cam v) tt
  | Speed body v =>
      reads "speed" body v /\ (0 <=? v)%float = true /\
      motor_says h ("Received request to set motor speed to: " ++ str_float v)
        (fun m => set_speed m v) tt
  end.

Definition expected (c : command) : json :=
  match c with
  | Move _ v => [("message", JString ("Motor moving to position: " ++ str_float v))]
  | Position p => [("position", JNumber p)]
  | Exposure _ v => [("message", JString ("Exposure time set to " ++ str_float v ++ " us"))]
  | Speed _ v => [("message", JString ("Motor speed set to: " ++ str_float v))]
  end.

Definition instrument_call (c : command) : call :=
  match c with
  | Move _ v => motor_move v
  | Position _ => motor_get_position
  | Exposure _ v => camera_setExposureTime v
  | Speed _ v => motor_set_speed v
  end.

Definition ok_response (fields : json) : http_response :=
  {| status_code := 200; media_type := "application/json"; body := JsonBody fields |}.

(** ** Errors raised inside a provider or an endpoint *)

(** The two errors the motor provider raises itself. *)
Inductive motor_fault : Type :=
| Timed_out
| No_client.

Definition motor_faults (f : motor_fault) (seconds : Q) (o : outcome (option MotorClient))
  : Prop :=
  match f with
  | Timed_out => times_out seconds o
  | No_client => in_time seconds /\ o = Return None
  end.

Definition specific_error (f : motor_fault) : exn :=
  match f with
  | Timed_out => timeout_error
  | No_client => no_client_error
  end.

(** The detail of the error [get_single_frame] raises itself. *)
Definition frame_cause (a : acquisition) : option string :=
  match a with
  | Encoded _ => None
  | No_frame => Some "No frames received from camera"
  | Not_encoded => Some "Could not encode frame to JPEG"
  end.

End Vocabulary.

(** * Further vocabulary *)

Definition is_error_log (ev : event) : bool :=
  match ev with Log ERROR _ => true | _ => false end.

(** The number of lines logged at the ERROR level. *)
Definition error_logs (d : list event) : nat := length (filter is_error_log d).

Section More_vocabulary.
Context {L : Libraries}.

(** The body of a request is refused by its model. *)
Definition rejects (req : request) : Prop :=
  match req with
  | PUT_exposure body => exists errors, ExposureSettings_validate body = inl errors
  | PUT_gain body => exists errors, GainSettings_validate body = inl errors
  | PUT_move body => exists errors, MotorMoveRequest_validate body = inl errors
  | PUT_speed body => exists errors, MotorSpeedRequest_validate body = inl errors
  | GET_frame | GET_position => False
  end.

(** How the motor provider fails before it yields: the error it wraps and
    what it has emitted. *)
Definition motor_failure (cause : exn) (d : list event) : Prop :=
  (cause = timeout_error /\
   d = [motor_attempt; motor_call;
        Log ERROR ("Timeout while attempting to connect to motor at "
                     ++ MOTOR_HOST ++ ":" ++ str_int MOTOR_PORT);
        Log ERROR ("Error connecting to motor: " ++ str timeout_error)]) \/
  (cause = no_client_error /\
   d = [motor_attempt; motor_call;
        Log ERROR "plico_motor.motor() returned None. Check plico_motor_server logs for details.";
        Log ERROR ("Error connecting to motor: " ++ str no_client_error)]) \/
  d = [motor_attempt; motor_call; Log ERROR ("Error connecting to motor: " ++ str cause)].

(** The six command endpoints, with the request they are given. *)
Inductive endpoint : Type :=
| Frame
| Set_exposure (settings : ExposureSettings)
| Set_gain (settings : GainSettings)
| Move_motor (request : MotorMoveRequest)
| Get_motor_position
| Set_motor_speed (request : MotorSpeedRequest).

Definition run (ep : endpoint) (camera : option pysilico.Camera)
    (motor : option MotorClient) : M endpoint_result :=
  match ep with
  | Frame => get_single_frame camera
  | Set_exposure settings => set_exposure settings camera
  | Set_gain settings => set_gain settings camera
  | Move_motor request => move_motor request motor
  | Get_motor_position => get_motor_position motor
  | Set_motor_speed request => set_motor_speed request motor
  end.

(** How each endpoint starts the line it logs and the detail it raises. *)
Definition logged_as (ep : endpoint) : string :=
  match ep with
  | Frame => "Error acquiring or encoding frame: "
  | Set_exposure _ => "Error setting exposure time: "
  | Set_gain _ => "Error setting gain: "
  | Move_motor _ => "Error moving motor: "
  | Get_motor_position => "Error getting motor position: "
  | Set_motor_speed _ => "Error setting motor speed: "
  end.

Definition raised_as (ep : endpoint) : string :=
  match ep with
  | Frame => "Error acquiring or encoding frame: "
  | Set_exposure _ => "Could not set exposure time: "
  | Set_gain _ => "Could not set gain: "
  | Move_motor _ => "Could not move motor: "
  | Get_motor_position => "Could not get motor position: "
  | Set_motor_speed _ => "Could not set motor speed: "
  end.

(** The body of a request that has one, and the field its model requires. *)
Definition body_field (req : request) : option (json * string) :=
  match req with
  | PUT_exposure body => Some (body, "exposure_time_us")
  | PUT_gain body => Some (body, "gain")
  | PUT_move body => Some (body, "position")
  | PUT_speed body => Some (body, "speed")
  | GET_frame | GET_position => None
  end.

(** The prefix under which a provider reports what went wrong, and the
    prefix of the endpoint of a request. *)
Definition provider_says (req : request) : string :=
  if camera_route req then "Could not connect to camera: " else "Could not connect to motor: ".

Definition endpoint_says (req : request) : string :=
  match req with
  | GET_frame => "Error acquiring or encoding frame: "
  | PUT_exposure _ => "Could not set exposure time: "
  | PUT_gain _ => "Could not set gain: "
  | PUT_move _ => "Could not move motor: "
  | GET_position => "Could not get motor position: "
  | PUT_speed _ => "Could not set motor speed: "
  end.

(** The method a camera endpoint calls first on its handle. *)
Definition first_method (req : request) : string :=
  match req with
  | GET_frame => "getFrameForDisplay"
  | PUT_exposure _ => "setExposureTime"
  | PUT_gain _ => "set_gain"
  | _ => EmptyString
  end.

(** What Python raises for [None.name]. *)
Definition none_has_no (name : string) : exn :=
  PyError "AttributeError" ("'NoneType' object has no attribute '" ++ name ++ "'").

(** What the look-up of [status.WS_500_INTERNAL_ERROR] raises. *)
Definition missing_status : exn :=
  PyError "AttributeError" "module 'fastapi.status' has no attribute 'WS_500_INTERNAL_ERROR'".

(** The response of [PUT /gain] and what the request emits on success. *)
Definition gain_events (v : float) : list event :=
  camera_prelude ++
  [Log INFO ("Attempting to set gain to " ++ str_float v ++ ".");
   Call (camera_set_gain v);
   Log INFO "Gain set successfully.";
   cleanup_log].

End More_vocabulary.

(** ** More test doubles *)

(** A motor whose [move] hits the limit switch. *)
Definition stuck_motor : MotorClient :=
  {| has_close := false;
     move := fun _ => always (Raise (PyError "RuntimeError" "limit switch reached"));
     get_position := always (Return 10%float);
     set_speed := fun _ => always (Return tt) |}.

Definition stuck_lab : Libraries :=
  mock_libraries (Return (Some good_camera)) (0.5%Q, Return (Some stuck_motor)).

Definition good_gain : json := [("gain", JNumber 2.5)].
Definition empty_body : json := [].

(** [PUT /move] to 50.0 on the stuck motor, and what it emits. *)
Definition stuck_events : list event :=
  [Log INFO "Received request to move motor to position: 50.0";
   Call (motor_move 50);
   Log ERROR "Error moving motor: limit switch reached"].

Definition stuck_response : http_response :=
  {| status_code := 500; media_type := "application/json";
     body := JsonBody [("detail",
               JString "Could not connect to motor: 500: Could not move motor: limit switch reached")] |}.

(** The response to a request when the camera server cannot be reached. *)
Definition dark_response : http_response :=
  {| status_code := 500; media_type := "application/json";
     body := JsonBody [("detail",
               JString "Could not connect to camera: [Errno 111] Connection refused")] |}.

(** What the stream emits on the camera that misses two frames. *)
Definition gappy_events : list event :=
  two_failures ++
  [Call (camera_getFutureFrames 1); Call (websocket_send_bytes jpeg)].

(** What the handler of the stream emits when the camera is unplugged. *)
Definition unplugged_events : list event :=
  [Call websocket_accept;
   Log INFO "WebSocket connection accepted for camera stream.";
   Call (camera_getFutureFrames 1);
   Log ERROR "Error during WebSocket camera stream: camera unplugged";
   Log INFO "Exiting WebSocket camera stream."].

(** Two consumers of the motor client that differ on [None] only. *)
Definition careful_consumer (motor : option MotorClient) : M bool :=
  match motor with
  | Some _ => ret true
  | None => raise (PyError "ValueError" "no motor")
  end.

Definition careless_consumer (motor : option MotorClient) : M bool := ret true.

(** Neither server answers the connection. *)
Definition hanging_lab : Libraries := mock_libraries Pending (0.5%Q, Pending).

(** * Properties *)

#[local] Arguments String.append : simpl never.

(** Symbolic execution: the operations of the monad are unfolded and the
    run is computed as far as the answers of the collaborators are known. *)
Ltac py :=
  unfold bind, try_except, try_finally, attempt, invoke, lift, wait_for, logger_info,
    logger_warning, logger_error, attr, status.getattr, ret, raise, after, extend in *;
  cbn in *.

Ltac lists := rewrite <- ?app_assoc, ?app_nil_r; cbn.

(** Splits on the answers the run is waiting for. *)
Ltac answers :=
  repeat match goal with
    | |- context [match ?x with _ => _ end] =>
        lazymatch x with
        | context [match _ with _ => _ end] => fail
        | _ => destruct x eqn:?; cbn in *
        end
    end.

(** ** Traces *)

Lemma calls_app d1 d2 : calls (d1 ++ d2) = calls d1 ++ calls d2.
Proof. unfold calls. apply flat_map_app. Qed.

Lemma count_app p d1 d2 : count p (d1 ++ d2) = count p d1 + count p d2.
Proof. unfold count. now rewrite calls_app, filter_app, length_app. Qed.

Lemma cleanups_app d1 d2 : cleanups (d1 ++ d2) = cleanups d1 + cleanups d2.
Proof. unfold cleanups. now rewrite filter_app, length_app. Qed.

Lemma count_cons p ev d : count p (ev :: d) = tally p ev + count p d.
Proof. apply (count_app p [ev] d). Qed.

Lemma cleanups_cons ev d : cleanups (ev :: d) = tally_cleanup ev + cleanups d.
Proof. apply (cleanups_app [ev] d). Qed.

Ltac tallies :=
  rewrite ?count_cons, ?cleanups_cons, ?count_app, ?cleanups_app.

Lemma quiet_app d1 d2 : quiet d1 -> quiet d2 -> quiet (d1 ++ d2).
Proof. unfold quiet. intros. now apply Forall_app. Qed.

Lemma quiet_counts d :
  quiet d -> count is_connection d = 0 /\ count is_release d = 0 /\ cleanups d = 0.
Proof.
  unfold quiet, count, cleanups, calls.
  induction 1 as [|ev d Hev _ IH]; [now cbn|].
  destruct IH as (IH1 & IH2 & IH3).
  destruct ev as [lvl msg|c]; cbn in *.
  - rewrite IH1, IH2. repeat split; trivial.
    destruct lvl; trivial. destruct (String.eqb msg _); [discriminate | trivial].
  - destruct (is_connection c), (is_release c); cbn in *; try discriminate; auto.
Qed.

(** ** Comparisons of floats with zero *)

Lemma not_positive_fails_gt x : (x <=? 0)%float = true -> gt 0 x = Some (greater_than 0).
Proof.
  unfold gt. rewrite leb_spec, ltb_spec. unfold SFleb, SFltb.
  replace (Prim2SF 0) with (S754_zero false) by reflexivity.
  destruct (Prim2SF x) as [s|s| |s m e]; cbn; try destruct s; cbn; congruence.
Qed.

Lemma negative_fails_ge x : (x <? 0)%float = true -> ge 0 x = Some (greater_than_equal 0).
Proof.
  unfold ge. rewrite leb_spec, ltb_spec. unfold SFleb, SFltb.
  replace (Prim2SF 0) with (S754_zero false) by reflexivity.
  destruct (Prim2SF x) as [s|s| |s m e]; cbn; try destruct s; cbn; congruence.
Qed.

Lemma gt_excludes x : (x <=? 0)%float = true -> gt 0 x <> None.
Proof. intros H. rewrite (not_positive_fails_gt x H). discriminate. Qed.

Lemma ge_excludes x : (x <? 0)%float = true -> ge 0 x <> None.
Proof. intros H. rewrite (negative_fails_ge x H). discriminate. Qed.

Lemma positive_passes_gt x : (0 <? x)%float = true -> gt 0 x = None.
Proof. unfold gt. now intros ->. Qed.

Lemma not_negative_passes_ge x : (0 <=? x)%float = true -> ge 0 x = None.
Proof. unfold ge. now intros ->. Qed.

Section Properties.
Context {L : Libraries}.

(** ** The camera provider *)

Ltac camera_provider :=
  unfold camera_answer, camera_attempt, get_pysilico_camera, camera_except, camera_finally,
    camera_exit, camera_prelude, camera_cleanup in *.

Lemma get_pysilico_camera_yields {A} (use : option pysilico.Camera -> M A) h camera :
  camera_answer h (Return camera) ->
  get_pysilico_camera use h =
    after camera_prelude (camera_exit camera (use camera (extend h camera_prelude))).
Proof.
  camera_provider. intros H. py. rewrite H. cbn.
  destruct (use camera _) as [[a|e|] d]; destruct camera; cbn; lists; reflexivity.
Qed.

Lemma get_pysilico_camera_raises {A} (use : option pysilico.Camera -> M A) h e :
  camera_answer h (Raise e) ->
  get_pysilico_camera use h =
    (Raise (HTTPException 500 ("Could not connect to camera: " ++ str e)),
     [camera_attempt; Call (pysilico_camera CAMERA_HOST CAMERA_PORT);
      Log ERROR ("Error connecting to camera: " ++ str e)]).
Proof. camera_provider. intros H. py. rewrite H. reflexivity. Qed.

Lemma get_pysilico_camera_pending {A} (use : option pysilico.Camera -> M A) h :
  camera_answer h Pending ->
  get_pysilico_camera use h =
    (Pending, [camera_attempt; Call (pysilico_camera CAMERA_HOST CAMERA_PORT)]).
Proof. camera_provider. intros H. py. rewrite H. reflexivity. Qed.

(** ** The motor provider *)

Ltac motor_provider :=
  unfold motor_answer, in_time, times_out, motor_attempt, motor_call, get_plico_motor,
    motor_connect, motor_connection_attempt, motor_except, motor_finally, motor_exit,
    motor_prelude, timeout_error, no_client_error in *.

Lemma get_plico_motor_yields {A} (use : option MotorClient -> M A) h seconds m :
  motor_answer h seconds (Return (Some m)) -> in_time seconds ->
  get_plico_motor use h =
    after (motor_prelude m) (motor_exit (use (Some m) (extend h (motor_prelude m)))).
Proof.
  motor_provider. intros H Ht. py. rewrite H. cbn. rewrite Ht. cbn.
  destruct (use (Some m) _) as [[a|e|] d]; destruct (has_close m); cbn; lists; reflexivity.
Qed.

Lemma get_plico_motor_times_out {A} (use : option MotorClient -> M A) h seconds o :
  motor_answer h seconds o -> times_out seconds o ->
  get_plico_motor use h =
    (Raise (HTTPException 500 ("Could not connect to motor: " ++ str timeout_error)),
     [motor_attempt; motor_call;
      Log ERROR ("Timeout while attempting to connect to motor at "
                   ++ MOTOR_HOST ++ ":" ++ str_int MOTOR_PORT);
      Log ERROR ("Error connecting to motor: " ++ str timeout_error)]).
Proof.
  motor_provider. intros H Ht. py. rewrite H.
  destruct Ht as [Ht|[->| ->]].
  - rewrite Ht. destruct o; reflexivity.
  - reflexivity.
  - destruct (Qle_bool seconds 10); reflexivity.
Qed.

Lemma get_plico_motor_no_client {A} (use : option MotorClient -> M A) h seconds :
  motor_answer h seconds (Return None) -> in_time seconds ->
  get_plico_motor use h =
    (Raise (HTTPException 500 ("Could not connect to motor: " ++ str no_client_error)),
     [motor_attempt; motor_call;
      Log ERROR "plico_motor.motor() returned None. Check plico_motor_server logs for details.";
      Log ERROR ("Error connecting to motor: " ++ str no_client_error)]).
Proof. motor_provider. intros H Ht. py. rewrite H. cbn. rewrite Ht. reflexivity. Qed.

Lemma get_plico_motor_raises {A} (use : option MotorClient -> M A) h seconds e :
  motor_answer h seconds (Raise e) -> in_time seconds -> e <> TimeoutError ->
  get_plico_motor use h =
    (Raise (HTTPException 500 ("Could not connect to motor: " ++ str e)),
     [motor_attempt; motor_call; Log ERROR ("Error connecting to motor: " ++ str e)]).
Proof.
  motor_provider. intros H Ht He. py. rewrite H. cbn. rewrite Ht.
  destruct e; try reflexivity. now destruct He.
Qed.

(** The motor provider always ends its connection attempt: whatever the
    call answers, the provider yields or raises a 500. *)
Lemma motor_answer_cases (seconds : Q) (o : outcome (option MotorClient)) :
  times_out seconds o \/
  in_time seconds /\
    ((exists m, o = Return (Some m)) \/ o = Return None \/
     (exists e, o = Raise e /\ e <> TimeoutError)).
Proof.
  unfold times_out, in_time.
  destruct (Qle_bool seconds 10); [|now left; left].
  destruct o as [[m|]|e|]; [right|right|..|now left; right; left].
  - split; trivial. left. now exists m.
  - split; trivial. now right; left.
  - destruct e; try (right; split; trivial; right; right; eexists; split;
                     [reflexivity | discriminate]).
    left. now right; right.
Qed.

(** ** The endpoints emit inner events only *)

Ltac quiet_run := py; answers; repeat constructor.

Lemma get_single_frame_quiet camera h : quiet (snd (get_single_frame camera h)).
Proof. unfold get_single_frame, quiet. quiet_run. Qed.

Lemma set_exposure_quiet settings camera h : quiet (snd (set_exposure settings camera h)).
Proof. unfold set_exposure, quiet. quiet_run. Qed.

Lemma set_gain_quiet settings camera h : quiet (snd (set_gain settings camera h)).
Proof. unfold set_gain, quiet. quiet_run. Qed.

Lemma move_motor_quiet request motor h : quiet (snd (move_motor request motor h)).
Proof. unfold move_motor, quiet. quiet_run. Qed.

Lemma get_motor_position_quiet motor h : quiet (snd (get_motor_position motor h)).
Proof. unfold get_motor_position, quiet. quiet_run. Qed.

Lemma set_motor_speed_quiet request motor h : quiet (snd (set_motor_speed request motor h)).
Proof. unfold set_motor_speed, quiet. quiet_run. Qed.

Lemma stream_iteration_quiet websocket camera h :
  quiet (snd (stream_iteration websocket camera h)).
Proof. unfold stream_iteration, stream_try, stream_except, quiet. quiet_run. Qed.

Lemma stream_loop_quiet fuel websocket camera :
  forall h, quiet (snd (stream_loop fuel websocket camera h)).
Proof.
  induction fuel as [|fuel IH]; intros h; [constructor|].
  cbn [stream_loop]. unfold bind.
  pose proof (stream_iteration_quiet websocket camera h) as Hq.
  destruct (stream_iteration websocket camera h) as [[c|e|] d]; cbn in *; trivial.
  destruct c; cbn; lists; trivial.
  apply quiet_app; [trivial | apply IH].
Qed.

Lemma websocket_camera_stream_quiet fuel websocket camera h :
  quiet (snd (websocket_camera_stream fuel websocket camera h)).
Proof.
  unfold websocket_camera_stream.
  unfold quiet. py. destruct (accept websocket h); cbn; repeat constructor.
  match goal with |- context [stream_loop fuel websocket camera ?h'] =>
    pose proof (stream_loop_quiet fuel websocket camera h') as Hq;
    destruct (stream_loop fuel websocket camera h') as [[c|e|] d] end;
    cbn in *; lists; trivial; apply Forall_app; split; trivial; repeat constructor.
Qed.

(** ** The streaming loop *)

Lemma extend_app h d1 d2 : extend h (d1 ++ d2) = extend (extend h d1) d2.
Proof. unfold extend. now rewrite !rev_append_rev, rev_app_distr, app_assoc. Qed.

Ltac stream := unfold stream_iteration, stream_try, stream_except in *.

Lemma stream_iteration_no_frame websocket camera h :
  no_frame camera h ->
  stream_iteration websocket (Some camera) h =
    (Return Continue,
     [Call (camera_getFutureFrames 1);
      Log WARNING "No frames received in WebSocket stream loop."]).
Proof. unfold no_frame. intros H. stream. py. now rewrite H. Qed.

Lemma stream_iteration_encoding_fails websocket camera h :
  encoding_fails camera h ->
  stream_iteration websocket (Some camera) h =
    (Return Continue,
     [Call (camera_getFutureFrames 1);
      Log ERROR "Could not encode frame to JPEG in WebSocket stream."]).
Proof.
  intros (frame & rest & buffer & H & He). stream. py. rewrite H. cbn. now rewrite He.
Qed.

Lemma stream_iteration_delivers websocket camera h jpeg_bytes :
  delivers websocket camera h jpeg_bytes ->
  stream_iteration websocket (Some camera) h = (Return Continue, delivery jpeg_bytes).
Proof.
  intros (frame & rest & H & He & Hs). stream. py.
  rewrite H. cbn. rewrite He. cbn. now rewrite Hs.
Qed.

Lemma stream_loop_continue fuel websocket camera h d :
  stream_iteration websocket camera h = (Return Continue, d) ->
  stream_loop (S fuel) websocket camera h =
    after d (stream_loop fuel websocket camera (extend h d)).
Proof. intros H. cbn [stream_loop]. unfold bind at 1. now rewrite H. Qed.

(** Only the error exit of an iteration can send a close frame. *)
Lemma stream_iteration_close_frame websocket camera h c d :
  stream_iteration websocket camera h = (Return c, d) -> c <> Break_error ->
  count is_close_frame d = 0.
Proof.
  stream. py. answers; intros [= <- <-] Hc; trivial; now destruct Hc.
Qed.

Lemma stream_loop_disconnect_close_frame fuel websocket camera :
  forall h d,
    stream_loop fuel websocket camera h = (Return Break_disconnect, d) ->
    count is_close_frame d = 0.
Proof.
  induction fuel as [|fuel IH]; intros h d; [discriminate|].
  cbn [stream_loop]. unfold bind.
  destruct (stream_iteration websocket camera h) as [[c|e|] d0] eqn:E; try discriminate.
  assert (Hd0 : c <> Break_error -> count is_close_frame d0 = 0)
    by (apply (stream_iteration_close_frame _ _ _ _ _ E)).
  destruct c; cbn.
  - destruct (stream_loop fuel websocket camera (extend h d0)) as [o d1] eqn:E1.
    cbn. intros [= -> <-]. rewrite count_app, Hd0, (IH _ _ E1); [trivial|discriminate].
  - intros [= <-]. rewrite app_nil_r. now apply Hd0.
  - discriminate.
Qed.

(** An exception other than a disconnect reaches the second [except]
    clause, where the look-up of [status.WS_500_INTERNAL_ERROR] fails. *)
Lemma stream_except_raises websocket e h :
  e <> WebSocketDisconnect ->
  stream_except websocket e h =
    (Raise (PyError "AttributeError"
              "module 'fastapi.status' has no attribute 'WS_500_INTERNAL_ERROR'"),
     [Log ERROR ("Error during WebSocket camera stream: " ++ str e)]).
Proof. intros He. destruct e; try reflexivity. now destruct He. Qed.

(** One failure: the iteration sends nothing and the loop goes on. *)
Lemma frame_failure_continues websocket camera h :
  frame_failure camera h ->
  exists d,
    stream_iteration websocket (Some camera) h = (Return Continue, d) /\
    count is_send d = 0 /\ count is_close_frame d = 0.
Proof.
  intros [H|H].
  - eexists. split; [now apply stream_iteration_no_frame | now split].
  - eexists. split; [now apply stream_iteration_encoding_fails | now split].
Qed.

Lemma after_after {A} d1 d2 (r : outcome A * list event) :
  after d1 (after d2 r) = after (d1 ++ d2) r.
Proof. unfold after. cbn. now rewrite app_assoc. Qed.

Lemma failing_run_sends_nothing websocket camera n h d :
  failing_run websocket camera n h d ->
  count is_send d = 0 /\ count is_close_frame d = 0.
Proof.
  induction 1 as [h|n h d1 d2 Hfail Hd1 Hrun (IHs & IHc)]; [split; reflexivity|].
  destruct (frame_failure_continues websocket camera h Hfail) as (d1' & Hd1' & Hs & Hc).
  rewrite Hd1 in Hd1'. injection Hd1' as <-.
  rewrite !count_app, Hs, Hc, IHs, IHc. split; reflexivity.
Qed.

Lemma failing_run_continues websocket camera n h d :
  failing_run websocket camera n h d ->
  forall fuel,
    stream_loop (n + fuel) websocket (Some camera) h =
      after d (stream_loop fuel websocket (Some camera) (extend h d)).
Proof.
  induction 1 as [h|n h d1 d2 Hfail Hd1 Hrun IH]; intros fuel.
  - cbn. unfold after. cbn. now destruct (stream_loop fuel websocket (Some camera) h).
  - cbn [Nat.add]. rewrite (stream_loop_continue _ _ _ _ _ Hd1), IH.
    now rewrite after_after, extend_app.
Qed.

(** C1.  In the streaming loop a per-frame failure does not end the
    connection.  Whenever the instrument returns no frame, or a frame that
    the encoder fails on, the iteration sends nothing (no binary message,
    no close frame) and the loop goes on to the next iteration, and so for
    any number of such iterations in a row; when the iteration that follows
    them acquires, encodes and sends a frame, the binary message is
    delivered and the loop goes on again. *)
Theorem frame_failures_keep_streaming websocket camera n h d :
  failing_run websocket camera n h d ->
  count is_send d = 0 /\ count is_close_frame d = 0 /\
  (forall fuel,
     stream_loop (n + fuel) websocket (Some camera) h =
       after d (stream_loop fuel websocket (Some camera) (extend h d))) /\
  (forall fuel jpeg_bytes,
     delivers websocket camera (extend h d) jpeg_bytes ->
     stream_loop (n + S fuel) websocket (Some camera) h =
       after (d ++ delivery jpeg_bytes)
         (stream_loop fuel websocket (Some camera) (extend h (d ++ delivery jpeg_bytes)))).
Proof.
  intros Hrun.
  destruct (failing_run_sends_nothing _ _ _ _ _ Hrun) as (Hs & Hc).
  pose proof (failing_run_continues _ _ _ _ _ Hrun) as Hloop.
  repeat split; trivial.
  intros fuel jpeg_bytes Hj.
  rewrite Hloop, (stream_loop_continue _ _ _ _ _ (stream_iteration_delivers _ _ _ _ Hj)).
  now rewrite after_after, extend_app.
Qed.

(** ** The peer closes the channel *)

Lemma live_run_continues websocket camera n h d :
  live_run websocket camera n h d ->
  forall fuel,
    stream_loop (n + fuel) websocket (Some camera) h =
      after d (stream_loop fuel websocket (Some camera) (extend h d)).
Proof.
  induction 1 as [h|n h d Hf Hrun IH|n h d Hf Hrun IH|n h jpeg_bytes d Hf Hrun IH];
    intros fuel.
  - cbn. unfold after. cbn. now destruct (stream_loop fuel websocket (Some camera) h).
  - cbn [Nat.add].
    rewrite (stream_loop_continue _ _ _ _ _ (stream_iteration_no_frame _ _ _ Hf)), IH.
    now rewrite after_after, extend_app.
  - cbn [Nat.add].
    rewrite (stream_loop_continue _ _ _ _ _ (stream_iteration_encoding_fails _ _ _ Hf)), IH.
    now rewrite after_after, extend_app.
  - cbn [Nat.add].
    rewrite (stream_loop_continue _ _ _ _ _ (stream_iteration_delivers _ _ _ _ Hf)), IH.
    now rewrite after_after, extend_app.
Qed.

(** The send raises [WebSocketDisconnect]: the first [except] clause logs
    it and breaks. *)
Lemma stream_iteration_peer_gone websocket camera h jpeg_bytes :
  peer_gone websocket camera h jpeg_bytes ->
  stream_iteration websocket (Some camera) h = (Return Break_disconnect, farewell jpeg_bytes).
Proof.
  intros (frame & rest & H & He & Hs). stream. py.
  rewrite H. cbn. rewrite He. cbn. now rewrite Hs.
Qed.

Lemma live_run_then_peer_gone websocket camera n h d jpeg_bytes fuel :
  live_run websocket camera n h d ->
  peer_gone websocket camera (extend h d) jpeg_bytes ->
  n < fuel ->
  stream_loop fuel websocket (Some camera) h =
    (Return Break_disconnect, d ++ farewell jpeg_bytes).
Proof.
  intros Hrun Hgone Hn.
  replace fuel with (n + S (fuel - S n)) by lia.
  rewrite (live_run_continues _ _ _ _ _ Hrun).
  cbn [stream_loop]. unfold bind at 1.
  rewrite (stream_iteration_peer_gone _ _ _ _ Hgone).
  unfold after, ret. cbn. now rewrite ?app_nil_r.
Qed.

(** C3 (the code departs from the claim).  The peer has closed the channel
    and a send finds it gone, after any number of iterations that went on:
    the send raises [WebSocketDisconnect], the first [except] clause logs
    it and breaks, and the handler returns without raising and without a
    close frame, for every number of observed iterations that reaches the
    failing send.  No release operation is called on the handle, neither
    before the handler returns nor after it: the provider's clean-up
    block, which runs once the handler has returned, only logs "Closing
    camera connection.". *)
Theorem disconnect_ends_stream websocket cam n h d jpeg_bytes fuel :
  camera_answer h (Return (Some cam)) ->
  accept websocket (extend h camera_prelude) = Return tt ->
  live_run websocket cam n (extend h (camera_prelude ++ stream_prelude)) d ->
  peer_gone websocket cam (extend h (camera_prelude ++ stream_prelude ++ d)) jpeg_bytes ->
  n < fuel ->
  camera_stream fuel websocket h =
    (Return tt,
     camera_prelude ++ stream_prelude ++ (d ++ farewell jpeg_bytes) ++
       [Log INFO "Exiting WebSocket camera stream."; cleanup_log]) /\
  count is_close_frame (snd (camera_stream fuel websocket h)) = 0 /\
  count is_release (snd (camera_stream fuel websocket h)) = 0 /\
  cleanups (snd (camera_stream fuel websocket h)) = 1.
Proof.
  intros Hc Ha Hrun Hgone Hn.
  assert (Hloop : stream_loop fuel websocket (Some cam)
                    (extend h (camera_prelude ++ stream_prelude)) =
                  (Return Break_disconnect, d ++ farewell jpeg_bytes)).
  { apply (live_run_then_peer_gone _ _ n); trivial. }
  assert (Hws : websocket_camera_stream fuel websocket (Some cam) (extend h camera_prelude) =
                (Return tt, stream_prelude ++ (d ++ farewell jpeg_bytes) ++
                              [Log INFO "Exiting WebSocket camera stream."])).
  { clear Hrun Hgone Hc. unfold websocket_camera_stream, stream_prelude, camera_prelude in *.
    py. rewrite Ha. cbn. rewrite Hloop. cbn. now rewrite app_nil_r. }
  assert (Hcs : camera_stream fuel websocket h =
      (Return tt,
       camera_prelude ++ stream_prelude ++ (d ++ farewell jpeg_bytes) ++
         [Log INFO "Exiting WebSocket camera stream."; cleanup_log])).
  { unfold camera_stream. rewrite (get_pysilico_camera_yields _ _ _ Hc), Hws.
    unfold camera_exit, after, camera_cleanup, cleanup_log. cbn [truthy fst snd].
    now rewrite <- !app_assoc. }
  pose proof (stream_loop_quiet fuel websocket (Some cam)
                (extend h (camera_prelude ++ stream_prelude))) as Hq.
  rewrite Hloop in Hq. cbn [snd] in Hq. apply quiet_counts in Hq.
  destruct Hq as (_ & Hrel & Hcl).
  pose proof (stream_loop_disconnect_close_frame _ _ _ _ _ Hloop) as Hclose.
  split; [exact Hcs|]. rewrite Hcs. cbn [snd].
  split; [|split].
  - rewrite (count_app _ camera_prelude), (count_app _ stream_prelude),
      (count_app _ (d ++ farewell jpeg_bytes)), Hclose. reflexivity.
  - rewrite (count_app _ camera_prelude), (count_app _ stream_prelude),
      (count_app _ (d ++ farewell jpeg_bytes)), Hrel. reflexivity.
  - rewrite (cleanups_app camera_prelude), (cleanups_app stream_prelude),
      (cleanups_app (d ++ farewell jpeg_bytes)), Hcl. reflexivity.
Qed.

(** ** One connection per request, and the clean-up of the providers *)

Lemma get_pysilico_camera_counts {A} (use : option pysilico.Camera -> M A) h o d :
  (forall camera h', quiet (snd (use camera h'))) ->
  get_pysilico_camera use h = (o, d) ->
  count is_connection d = 1 /\ count is_release d = 0 /\
  (o <> Pending -> forall cam, camera_answer h (Return (Some cam)) ->
     cleanups d = 1 /\ exists d', d = d' ++ [cleanup_log]).
Proof.
  intros Hq H.
  destruct (pysilico_camera_fn CAMERA_HOST CAMERA_PORT (camera_attempt :: h))
    as [camera|e|] eqn:E.
  - rewrite (get_pysilico_camera_yields use h camera E) in H.
    specialize (Hq camera (extend h camera_prelude)).
    destruct (use camera _) as [[a|e|] du]; cbn [snd] in Hq;
      apply quiet_counts in Hq; destruct Hq as (Hc & Hr & Hl);
      unfold camera_exit, after in H; cbn [fst snd] in H; injection H as <- <-;
      unfold camera_prelude; cbn [app]; tallies; rewrite ?Hc, ?Hr, ?Hl;
      (split; [now destruct camera|]); (split; [now destruct camera|]);
      intros Ho cam Hcam; unfold camera_answer in Hcam; rewrite E in Hcam;
      injection Hcam as ->; try now destruct Ho.
    + split; [reflexivity|].
      exists (camera_prelude ++ du). unfold camera_prelude. now rewrite <- app_assoc.
    + split; [reflexivity|].
      exists (camera_prelude ++ du ++ [Log ERROR ("Error connecting to camera: " ++ str e)]).
      unfold camera_prelude. now rewrite <- !app_assoc.
  - rewrite (get_pysilico_camera_raises use h e E) in H. injection H as <- <-.
    split; [reflexivity | split; [reflexivity|]].
    intros _ cam Hcam. unfold camera_answer in Hcam. congruence.
  - rewrite (get_pysilico_camera_pending use h E) in H. injection H as <- <-.
    split; [reflexivity | split; [reflexivity|]].
    intros Ho. now destruct Ho.
Qed.

Lemma get_plico_motor_counts {A} (use : option MotorClient -> M A) h o d :
  (forall motor h', quiet (snd (use motor h'))) ->
  get_plico_motor use h = (o, d) ->
  count is_connection d = 1 /\ count is_release d = 0 /\ cleanups d = 0.
Proof.
  intros Hq H.
  destruct (plico_motor_motor_fn MOTOR_HOST MOTOR_PORT 1 (motor_attempt :: h))
    as [seconds a] eqn:E.
  destruct (motor_answer_cases seconds a) as [Ht|(Ht & [(m & ->)|[->|(e & -> & He)]])].
  - rewrite (get_plico_motor_times_out use h seconds a E Ht) in H. injection H as <- <-.
    now repeat split.
  - rewrite (get_plico_motor_yields use h seconds m E Ht) in H.
    specialize (Hq (Some m) (extend h (motor_prelude m))).
    destruct (use (Some m) _) as [[x|e|] du]; cbn [snd] in Hq;
      apply quiet_counts in Hq; destruct Hq as (Hc & Hr & Hl);
      unfold motor_exit, after in H; cbn [fst snd] in H; injection H as <- <-;
      unfold motor_prelude; cbn [app]; tallies; rewrite ?Hc, ?Hr, ?Hl;
      destruct (has_close m); now repeat split.
  - rewrite (get_plico_motor_no_client use h seconds E Ht) in H. injection H as <- <-.
    now repeat split.
  - rewrite (get_plico_motor_raises use h seconds e E Ht He) in H. injection H as <- <-.
    now repeat split.
Qed.

(** What runs while the provider of a route is suspended. *)
Lemma route_use_quiet {H B} (validated : list validation_error + B)
    (endpoint : B -> option H -> M endpoint_result) handle h :
  (forall request handle h', quiet (snd (endpoint request handle h'))) ->
  quiet (snd (match validated with
              | inl errors => ret (inl errors)
              | inr request => x <- endpoint request handle ;; ret (inr x)
              end h)).
Proof.
  intros Hq. destruct validated as [errors|request]; [constructor|].
  specialize (Hq request handle h). unfold bind.
  destruct (endpoint request handle h) as [[x|e|] d]; cbn in *; trivial.
  now rewrite app_nil_r.
Qed.

(** What a route emits is what its dependency emits, and the route has no
    response only as long as the dependency has not ended. *)
Lemma route_runs {H B}
    (dependency : (option H -> M (list validation_error + endpoint_result))
                  -> M (list validation_error + endpoint_result))
    (validated : list validation_error + B) endpoint h :
  exists o,
    dependency (fun handle =>
                  match validated with
                  | inl errors => ret (inl errors)
                  | inr request => x <- endpoint request handle ;; ret (inr x)
                  end) h = (o, snd (route dependency validated endpoint h)) /\
    (fst (route dependency validated endpoint h) <> Pending -> o <> Pending).
Proof.
  unfold route, bind, attempt.
  destruct (dependency _ h) as [[x|e|] d0]; cbn; rewrite ?app_nil_r;
    eexists; (split; [reflexivity|]); intros Hp; try discriminate. now destruct Hp.
Qed.

Lemma camera_route_counts {B} (validated : list validation_error + B)
    (endpoint : B -> option pysilico.Camera -> M endpoint_result) h :
  (forall request camera h', quiet (snd (endpoint request camera h'))) ->
  count is_connection (snd (route get_pysilico_camera validated endpoint h)) = 1 /\
  count is_release (snd (route get_pysilico_camera validated endpoint h)) = 0 /\
  (forall cam, camera_answer h (Return (Some cam)) ->
     fst (route get_pysilico_camera validated endpoint h) <> Pending ->
     cleanups (snd (route get_pysilico_camera validated endpoint h)) = 1 /\
     exists d', snd (route get_pysilico_camera validated endpoint h) = d' ++ [cleanup_log]).
Proof.
  intros Hq.
  destruct (route_runs get_pysilico_camera validated endpoint h) as (o & H & Ho).
  eapply get_pysilico_camera_counts in H;
    [|intros camera h'; now apply (route_use_quiet validated endpoint camera h')].
  destruct H as (Hc & Hr & Hl). split; [trivial | split; [trivial|]].
  intros cam Hcam Hp. exact (Hl (Ho Hp) cam Hcam).
Qed.

Lemma motor_route_counts {B} (validated : list validation_error + B)
    (endpoint : B -> option MotorClient -> M endpoint_result) h :
  (forall request motor h', quiet (snd (endpoint request motor h'))) ->
  count is_connection (snd (route get_plico_motor validated endpoint h)) = 1 /\
  count is_release (snd (route get_plico_motor validated endpoint h)) = 0.
Proof.
  intros Hq.
  destruct (route_runs get_plico_motor validated endpoint h) as (o & H & _).
  eapply get_plico_motor_counts in H;
    [|intros motor h'; now apply (route_use_quiet validated endpoint motor h')].
  destruct H as (Hc & Hr & _). now split.
Qed.

(** Every request makes one connection call and no release, however it
    ends. *)
Lemma app_counts req h :
  count is_connection (snd (app req h)) = 1 /\
  count is_release (snd (app req h)) = 0 /\
  (camera_route req = true -> forall cam, camera_answer h (Return (Some cam)) ->
     fst (app req h) <> Pending ->
     cleanups (snd (app req h)) = 1 /\ exists d', snd (app req h) = d' ++ [cleanup_log]).
Proof.
  destruct req as [|b|b|b| |b]; unfold app; cbn [camera_route].
  - destruct (camera_route_counts (@inr (list validation_error) unit tt)
                (fun _ : unit => get_single_frame) h) as (Hc & Hr & Hl);
      [intros; apply get_single_frame_quiet|].
    split; [trivial | split; [trivial|]]. intros _. exact Hl.
  - destruct (camera_route_counts (ExposureSettings_validate b) set_exposure h)
      as (Hc & Hr & Hl); [intros; apply set_exposure_quiet|].
    split; [trivial | split; [trivial|]]. intros _. exact Hl.
  - destruct (camera_route_counts (GainSettings_validate b) set_gain h)
      as (Hc & Hr & Hl); [intros; apply set_gain_quiet|].
    split; [trivial | split; [trivial|]]. intros _. exact Hl.
  - destruct (motor_route_counts (MotorMoveRequest_validate b) move_motor h)
      as (Hc & Hr); [intros; apply move_motor_quiet|].
    split; [trivial | split; [trivial | discriminate]].
  - destruct (motor_route_counts (@inr (list validation_error) unit tt)
                (fun _ : unit => get_motor_position) h) as (Hc & Hr);
      [intros; apply get_motor_position_quiet|].
    split; [trivial | split; [trivial | discriminate]].
  - destruct (motor_route_counts (MotorSpeedRequest_validate b) set_motor_speed h)
      as (Hc & Hr); [intros; apply set_motor_speed_quiet|].
    split; [trivial | split; [trivial | discriminate]].
Qed.

(** C4 (the code departs from the claim).  Every request and every
    streaming connection makes a connection call of its own, exactly one:
    no handle is kept from one exchange to the next.  But on no exit path
    (normal return, validation failure, failure of the connection or of an
    instrument call, client disconnect), and whatever the handle is, is a
    release operation called on it: the count of release calls is zero
    where the claim has one.  When the camera was connected and the
    exchange has ended, the clean-up block of the provider has run once,
    last, and has only logged "Closing camera connection.". *)
Theorem handle_lifecycle (x : exchange) h :
  count is_connection (happens x h) = 1 /\
  count is_release (happens x h) = 0 /\
  (uses_camera x = true -> forall cam, camera_answer h (Return (Some cam)) ->
     ~ going_on x h ->
     cleanups (happens x h) = 1 /\ exists d', happens x h = d' ++ [cleanup_log]).
Proof.
  destruct x as [req|fuel websocket]; cbn [happens going_on uses_camera].
  - apply app_counts.
  - unfold camera_stream.
    destruct (get_pysilico_camera (websocket_camera_stream fuel websocket) h) as [o d] eqn:H.
    apply get_pysilico_camera_counts in H;
      [|intros; apply websocket_camera_stream_quiet].
    destruct H as (Hc & Hr & Hl). cbn [fst snd].
    split; [trivial | split; [trivial|]].
    intros _ cam Hcam Ho. exact (Hl Ho cam Hcam).
Qed.

(** ** Rejected input *)

Lemma validate_float_model_rejects name constraint (excluded : float -> bool) body v :
  (forall x, excluded x = true -> constraint x <> None) ->
  get_field name body = Some v ->
  match float_field v with None => True | Some x => excluded x = true end ->
  exists err, validate_float_model name constraint body = inl [err].
Proof.
  intros Hc Hf Hv. unfold validate_float_model. rewrite Hf.
  destruct (float_field v) as [x|]; [|now eexists].
  specialize (Hc x Hv). destruct (constraint x); [now eexists | now destruct Hc].
Qed.

(** A route whose body is rejected, behind the camera provider: what it
    answers, for each answer of the connection call. *)
Lemma rejected_camera_route {B} errors
    (endpoint : B -> option pysilico.Camera -> M endpoint_result) h :
  route get_pysilico_camera (inl errors) endpoint h =
    match pysilico_camera_fn CAMERA_HOST CAMERA_PORT (camera_attempt :: h) with
    | Return camera =>
        (Return (validation_response errors), camera_prelude ++ camera_cleanup camera)
    | Raise e =>
        (Return (server_error ("Could not connect to camera: " ++ str e)),
         [camera_attempt; Call (pysilico_camera CAMERA_HOST CAMERA_PORT);
          Log ERROR ("Error connecting to camera: " ++ str e)])
    | Pending =>
        (Pending, [camera_attempt; Call (pysilico_camera CAMERA_HOST CAMERA_PORT)])
    end.
Proof.
  unfold route. unfold bind at 1. unfold attempt.
  destruct (pysilico_camera_fn CAMERA_HOST CAMERA_PORT (camera_attempt :: h))
    as [camera|e|] eqn:E.
  - rewrite (get_pysilico_camera_yields _ h camera E). cbn.
    rewrite ?app_nil_r. now destruct camera.
  - now rewrite (get_pysilico_camera_raises _ h e E).
  - now rewrite (get_pysilico_camera_pending _ h E).
Qed.

Lemma motor_route_run_rejected {B} errors
    (endpoint : B -> option MotorClient -> M endpoint_result) h seconds m :
  motor_answer h seconds (Return (Some m)) -> in_time seconds ->
  route get_plico_motor (inl errors) endpoint h =
    (Return (validation_response errors), motor_prelude m).
Proof.
  intros Hc Ht. unfold route. unfold bind at 1. unfold attempt.
  rewrite (get_plico_motor_yields _ h seconds m Hc Ht).
  unfold after, ret, motor_exit. cbn. now rewrite ?app_nil_r.
Qed.

(** The same behind the motor provider, which always answers: the
    validation error when a client was obtained in time, the provider's
    500 otherwise. *)
Lemma rejected_motor_route {B} errors
    (endpoint : B -> option MotorClient -> M endpoint_result) h :
  (exists seconds m,
     motor_answer h seconds (Return (Some m)) /\ in_time seconds /\
     route get_plico_motor (inl errors) endpoint h =
       (Return (validation_response errors), motor_prelude m)) \/
  (~ (exists seconds m, motor_answer h seconds (Return (Some m)) /\ in_time seconds) /\
   exists detail d,
     route get_plico_motor (inl errors) endpoint h = (Return (server_error detail), d) /\
     count is_command d = 0 /\ count is_connection d = 1).
Proof.
  destruct (plico_motor_motor_fn MOTOR_HOST MOTOR_PORT 1 (motor_attempt :: h))
    as [seconds a] eqn:E.
  assert (Hyes : forall s m, motor_answer h s (Return (Some m)) -> s = seconds /\ a = Return (Some m))
    by (unfold motor_answer; intros s m Hs; rewrite E in Hs; now injection Hs as -> ->).
  unfold route. unfold bind at 1 2. unfold attempt.
  destruct (motor_answer_cases seconds a) as [Ht|(Ht & [(m & ->)|[->|(e & -> & He)]])].
  - right. split.
    + intros (s & m & Hs & Hin). destruct (Hyes s m Hs) as (-> & ->).
      unfold times_out, in_time in *. destruct Ht as [Ht|[Ht|Ht]]; congruence.
    + rewrite (get_plico_motor_times_out _ h seconds a E Ht). cbn.
      eexists. eexists. split; [reflexivity|]. now split.
  - left. exists seconds, m. split; [exact E | split; [exact Ht|]].
    rewrite (get_plico_motor_yields _ h seconds m E Ht). cbn. now rewrite ?app_nil_r.
  - right. split.
    + intros (s & m & Hs & _). destruct (Hyes s m Hs). congruence.
    + rewrite (get_plico_motor_no_client _ h seconds E Ht). cbn.
      eexists. eexists. split; [reflexivity|]. now split.
  - right. split.
    + intros (s & m & Hs & _). destruct (Hyes s m Hs). congruence.
    + rewrite (get_plico_motor_raises _ h seconds e E Ht He). cbn.
      eexists. eexists. split; [reflexivity|]. now split.
Qed.

(** The two cases, for a camera route and for a motor route. *)
Lemma rejected_camera_request {B} errors
    (endpoint : B -> option pysilico.Camera -> M endpoint_result) h :
  count is_command (snd (route get_pysilico_camera (inl errors) endpoint h)) = 0 /\
  count is_connection (snd (route get_pysilico_camera (inl errors) endpoint h)) = 1 /\
  ((exists camera, camera_answer h (Return camera)) ->
     fst (route get_pysilico_camera (inl errors) endpoint h) =
       Return (validation_response errors)) /\
  (~ (exists camera, camera_answer h (Return camera)) ->
     (exists detail,
        fst (route get_pysilico_camera (inl errors) endpoint h) =
          Return (server_error detail)) \/
     (camera_answer h Pending /\
      fst (route get_pysilico_camera (inl errors) endpoint h) = Pending)).
Proof.
  rewrite rejected_camera_route. unfold camera_answer.
  destruct (pysilico_camera_fn CAMERA_HOST CAMERA_PORT (camera_attempt :: h))
    as [camera|e|]; cbn [fst snd].
  - split; [now destruct camera | split; [now destruct camera | split; [trivial|]]].
    intros Hn. destruct Hn. now exists camera.
  - split; [reflexivity | split; [reflexivity | split]].
    + intros (camera & Hc). discriminate Hc.
    + intros _. left. now eexists.
  - split; [reflexivity | split; [reflexivity | split]].
    + intros (camera & Hc). discriminate Hc.
    + intros _. right. now split.
Qed.

Lemma rejected_motor_request {B} errors
    (endpoint : B -> option MotorClient -> M endpoint_result) h :
  count is_command (snd (route get_plico_motor (inl errors) endpoint h)) = 0 /\
  count is_connection (snd (route get_plico_motor (inl errors) endpoint h)) = 1 /\
  ((exists seconds m, motor_answer h seconds (Return (Some m)) /\ in_time seconds) ->
     fst (route get_plico_motor (inl errors) endpoint h) =
       Return (validation_response errors)) /\
  (~ (exists seconds m, motor_answer h seconds (Return (Some m)) /\ in_time seconds) ->
     exists detail,
       fst (route get_plico_motor (inl errors) endpoint h) =
         Return (server_error detail)).
Proof.
  destruct (rejected_motor_route errors endpoint h)
    as [(seconds & m & Hc & Ht & ->)|(Hn & detail & d & -> & H1 & H2)]; cbn [fst snd].
  - split; [now destruct (has_close m) | split; [now destruct (has_close m) | split; [trivial|]]].
    intros Hn. destruct Hn. now exists seconds, m.
  - split; [trivial | split; [trivial | split]].
    + intros Hc. now destruct Hn.
    + intros _. now exists detail.
Qed.

(** C7 (amended).  A request whose numeric field has the wrong type or
    violates its declared constraint ([exposure_time_us <= 0], [gain < 0],
    [speed < 0]) never reaches the endpoint: no instrument command is
    issued.  The connection provider runs before the body is validated,
    so the connection call itself is made, once.  When it gives a handle,
    the request is answered with the structured validation error (422),
    and never with a 500.  When it does not, a motor route is answered
    with the provider's 500; a camera route is answered with the
    provider's 500 when the connection call fails, and has no response
    as long as the connection call does not answer. *)
Theorem rejected_input_sends_no_command req h :
  violates_constraint req ->
  count is_command (snd (app req h)) = 0 /\
  count is_connection (snd (app req h)) = 1 /\
  (connects req h ->
     exists err,
       fst (app req h) = Return (validation_response [err]) /\
       status_code_of (fst (app req h)) = Some 422%Z) /\
  (~ connects req h ->
     (exists detail, fst (app req h) = Return (server_error detail)) \/
     (camera_route req = true /\ camera_answer h Pending /\ fst (app req h) = Pending)).
Proof.
  intros (body & name & excluded & v & Hn & Hf & Hv).
  unfold connects.
  destruct req as [|b|b|b| |b]; cbn [numeric_field camera_route] in *;
    try discriminate; injection Hn as <- <- <-; unfold app.
  - destruct (validate_float_model_rejects _ (gt 0) _ b v
                gt_excludes Hf Hv) as (err & He).
    unfold ExposureSettings_validate. rewrite He.
    destruct (rejected_camera_request [err] set_exposure h) as (H1 & H2 & H3 & H4).
    split; [trivial | split; [trivial | split]].
    + intros Hc. exists err. rewrite (H3 Hc). now split.
    + intros Hc. destruct (H4 Hc) as [Hd|(Hp & Hq)]; [now left | right; now repeat split].
  - destruct (validate_float_model_rejects _ (ge 0) _ b v
                ge_excludes Hf Hv) as (err & He).
    unfold GainSettings_validate. rewrite He.
    destruct (rejected_camera_request [err] set_gain h) as (H1 & H2 & H3 & H4).
    split; [trivial | split; [trivial | split]].
    + intros Hc. exists err. rewrite (H3 Hc). now split.
    + intros Hc. destruct (H4 Hc) as [Hd|(Hp & Hq)]; [now left | right; now repeat split].
  - destruct (validate_float_model_rejects _ unconstrained _ b v
                (fun x Hx => False_ind _ (diff_false_true Hx)) Hf Hv) as (err & He).
    unfold MotorMoveRequest_validate. rewrite He.
    destruct (rejected_motor_request [err] move_motor h) as (H1 & H2 & H3 & H4).
    split; [trivial | split; [trivial | split]].
    + intros Hc. exists err. rewrite (H3 Hc). now split.
    + intros Hc. left. exact (H4 Hc).
  - destruct (validate_float_model_rejects _ (ge 0) _ b v
                ge_excludes Hf Hv) as (err & He).
    unfold MotorSpeedRequest_validate. rewrite He.
    destruct (rejected_motor_request [err] set_motor_speed h) as (H1 & H2 & H3 & H4).
    split; [trivial | split; [trivial | split]].
    + intros Hc. exists err. rewrite (H3 Hc). now split.
    + intros Hc. left. exact (H4 Hc).
Qed.

(** ** [GET /frame] *)

Lemma get_single_frame_acquires cam h a :
  acquires cam h a ->
  fst (get_single_frame (Some cam) h) =
    match a with
    | Encoded jpeg_bytes => Return (Response jpeg_bytes "image/jpeg")
    | No_frame => Raise (frame_error "No frames received from camera")
    | Not_encoded => Raise (frame_error "Could not encode frame to JPEG")
    end.
Proof.
  unfold acquires, frame_history, get_single_frame, frame_error.
  destruct a as [jpeg_bytes| |].
  - intros (fo & frame & H1 & H2 & H3). py. rewrite H1. cbn. rewrite H2. cbn.
    now rewrite H3.
  - intros H1. py. now rewrite H1.
  - intros (fo & frame & buffer & H1 & H2 & H3). py. rewrite H1. cbn. rewrite H2. cbn.
    now rewrite H3.
Qed.

(** What the client receives from a route behind the camera provider. *)
Lemma camera_route_response {B} (request : B) endpoint h camera :
  camera_answer h (Return camera) ->
  fst (route get_pysilico_camera (inr request) endpoint h) =
    match fst (endpoint request camera (extend h camera_prelude)) with
    | Return x => Return (render x)
    | Raise e => Return (server_error ("Could not connect to camera: " ++ str e))
    | Pending => Pending
    end.
Proof.
  intros Hc. unfold route. unfold bind at 1. unfold attempt.
  rewrite (get_pysilico_camera_yields _ h camera Hc). unfold bind.
  destruct (endpoint request camera (extend h camera_prelude)) as [[x|e|] d]; reflexivity.
Qed.

(** C8.  [GET /frame] with the camera connected.  When the instrument
    returns a frame and the encoding succeeds, the response is 200 with
    content type image/jpeg and the JPEG bytes as its body, which is not
    empty (the encoder gives no empty result).  When the instrument
    returns no frame, or the encoding fails, the response is a 500 whose
    message carries the text of the endpoint's error, which carries the
    text of the cause; no 200 and no body of bytes is returned. *)
Theorem frame_response h cam a :
  encoder_sound ->
  camera_answer h (Return (Some cam)) ->
  acquires cam (extend h camera_prelude) a ->
  match a with
  | Encoded jpeg_bytes =>
      fst (app GET_frame h) =
        Return {| status_code := 200; media_type := "image/jpeg";
                  body := BytesBody jpeg_bytes |} /\
      jpeg_bytes <> []
  | No_frame =>
      fst (app GET_frame h) =
        Return (server_error ("Could not connect to camera: "
                                ++ str (frame_error "No frames received from camera")))
  | Not_encoded =>
      fst (app GET_frame h) =
        Return (server_error ("Could not connect to camera: "
                                ++ str (frame_error "Could not encode frame to JPEG")))
  end.
Proof.
  intros Hsound Hc Ha. unfold app.
  rewrite (camera_route_response tt (fun _ => get_single_frame) h (Some cam) Hc).
  rewrite (get_single_frame_acquires cam _ a Ha).
  destruct a as [jpeg_bytes| |]; trivial.
  split; [reflexivity|].
  destruct Ha as (fo & frame & _ & _ & He). exact (Hsound _ _ _ He).
Qed.

(** ** Successful commands *)

Lemma motor_route_response {B} (request : B) endpoint h seconds m :
  motor_answer h seconds (Return (Some m)) -> in_time seconds ->
  route get_plico_motor (inr request) endpoint h =
    match endpoint request (Some m) (extend h (motor_prelude m)) with
    | (Return x, d) => (Return (render x), motor_prelude m ++ d)
    | (Raise e, d) =>
        (Return (server_error ("Could not connect to motor: " ++ str e)),
         motor_prelude m ++ d ++ [Log ERROR ("Error connecting to motor: " ++ str e)])
    | (Pending, d) => (Pending, motor_prelude m ++ d)
    end.
Proof.
  intros Hc Ht. unfold route. unfold bind at 1. unfold attempt.
  rewrite (get_plico_motor_yields _ h seconds m Hc Ht). unfold bind.
  destruct (endpoint request (Some m) (extend h (motor_prelude m))) as [[x|e|] d];
    unfold after, ret; cbn; now rewrite ?app_nil_r.
Qed.

Lemma camera_route_run {B} (request : B) endpoint h cam x d :
  camera_answer h (Return (Some cam)) ->
  endpoint request (Some cam) (extend h camera_prelude) = (Return x, d) ->
  route get_pysilico_camera (inr request) endpoint h =
    (Return (render x), camera_prelude ++ d ++ [cleanup_log]).
Proof.
  intros Hc He. unfold route. unfold bind at 1. unfold attempt.
  rewrite (get_pysilico_camera_yields _ h (Some cam) Hc). unfold bind.
  rewrite He. unfold after, ret, camera_exit, camera_cleanup, cleanup_log. cbn.
  now rewrite ?app_nil_r.
Qed.

Lemma reads_validates name constraint body v :
  reads name body v -> constraint v = None ->
  validate_float_model name constraint body = inr v.
Proof.
  intros (v0 & Hf & Hv) Hc. unfold validate_float_model. now rewrite Hf, Hv, Hc.
Qed.

(** C9.  For every successful command the response is 200 with the
    declared translation, which echoes the input: [PUT /move] answers
    "Motor moving to position: <v>" and calls the motor's [move] once, with
    [v]; [GET /position] answers the very value the motor's position read
    returned; [PUT /exposure] answers "Exposure time set to <v> us";
    [PUT /speed] answers "Motor speed set to: <v>".  In each case the one
    call of the command is the only command sent to the instrument. *)
Theorem successful_command c h :
  succeeds c h ->
  exists d,
    app (request_of c) h = (Return (ok_response (expected c)), d) /\
    filter is_command (calls d) = [instrument_call c].
Proof.
  destruct c as [body v|p|body v|body v]; cbn [succeeds request_of expected instrument_call app].
  - intros (Hr & s & m & Hc & Ht & Hm).
    unfold MotorMoveRequest_validate.
    rewrite (reads_validates _ unconstrained _ _ Hr eq_refl).
    rewrite (motor_route_response _ move_motor h s m Hc Ht).
    unfold move_motor. cbn [position]. py. rewrite Hm. cbn.
    eexists. split; [reflexivity|]. now destruct (has_close m).
  - intros (s & m & Hc & Ht & Hm).
    rewrite (motor_route_response tt (fun _ => get_motor_position) h s m Hc Ht).
    unfold get_motor_position. py. rewrite Hm. cbn.
    eexists. split; [reflexivity|]. now destruct (has_close m).
  - intros (Hr & Hpos & cam & Hc & Hm).
    unfold ExposureSettings_validate.
    rewrite (reads_validates _ (gt 0) _ _ Hr (positive_passes_gt v Hpos)).
    assert (He : set_exposure {| exposure_time_us := v |} (Some cam) (extend h camera_prelude) =
                 (Return (Dict (expected (Exposure body v))),
                  [Log INFO ("Attempting to set exposure time to " ++ str_float v ++ " us.");
                   Call (camera_setExposureTime v);
                   Log INFO "Exposure time set successfully."])).
    { unfold set_exposure. cbn [exposure_time_us]. py. now rewrite Hm. }
    rewrite (camera_route_run _ set_exposure h cam _ _ Hc He).
    eexists. split; reflexivity.
  - intros (Hr & Hpos & s & m & Hc & Ht & Hm).
    unfold MotorSpeedRequest_validate.
    rewrite (reads_validates _ (ge 0) _ _ Hr (not_negative_passes_ge v Hpos)).
    rewrite (motor_route_response _ set_motor_speed h s m Hc Ht).
    unfold set_motor_speed. cbn [speed]. py. rewrite Hm. cbn.
    eexists. split; [reflexivity|]. now destruct (has_close m).
Qed.

(** ** The bound on the connection to the motor *)

(** A line that starts otherwise is not the line of the timeout. *)
Ltac other_line H :=
  first [ discriminate H
        | injection H as H; vm_compute in H; discriminate H ].

Ltac no_timeout_log H :=
  cbn in H;
  repeat (destruct H as [H|H]; [other_line H|]);
  try (now destruct H).

Lemma move_motor_no_timeout_log request motor h :
  ~ In timeout_log (snd (move_motor request motor h)).
Proof. unfold move_motor, timeout_log. py. answers; intros H; no_timeout_log H. Qed.

Lemma get_motor_position_no_timeout_log motor h :
  ~ In timeout_log (snd (get_motor_position motor h)).
Proof. unfold get_motor_position, timeout_log. py. answers; intros H; no_timeout_log H. Qed.

Lemma set_motor_speed_no_timeout_log request motor h :
  ~ In timeout_log (snd (set_motor_speed request motor h)).
Proof. unfold set_motor_speed, timeout_log. py. answers; intros H; no_timeout_log H. Qed.

Lemma motor_route_times_out {B} (validated : list validation_error + B)
    (endpoint : B -> option MotorClient -> M endpoint_result) h seconds o :
  motor_answer h seconds o -> times_out seconds o ->
  route get_plico_motor validated endpoint h =
    (Return (server_error ("Could not connect to motor: " ++ str timeout_error)),
     [motor_attempt; motor_call; timeout_log;
      Log ERROR ("Error connecting to motor: " ++ str timeout_error)]).
Proof.
  intros Hc Ht. unfold route. unfold bind at 1. unfold attempt.
  now rewrite (get_plico_motor_times_out _ h seconds o Hc Ht).
Qed.

Lemma motor_route_in_time {B} (validated : list validation_error + B)
    (endpoint : B -> option MotorClient -> M endpoint_result) h seconds o :
  motor_answer h seconds o -> ~ times_out seconds o ->
  (forall request motor h', ~ In timeout_log (snd (endpoint request motor h'))) ->
  ~ In timeout_log (snd (route get_plico_motor validated endpoint h)).
Proof.
  intros Hc Hn He.
  destruct (motor_answer_cases seconds o) as [Ht|(Ht & [(m & ->)|[->|(e & -> & Hne)]])].
  - now destruct Hn.
  - destruct validated as [errors|request].
    + rewrite (motor_route_run_rejected errors endpoint h seconds m Hc Ht).
      unfold timeout_log, motor_prelude. intros H. no_timeout_log H.
    + rewrite (motor_route_response request endpoint h seconds m Hc Ht).
      specialize (He request (Some m) (extend h (motor_prelude m))).
      destruct (endpoint request (Some m) (extend h (motor_prelude m))) as [[x|e|] d];
        cbn [snd] in *; intros H; apply in_app_or in H; destruct H as [H|H];
        try (now apply He);
        try (unfold timeout_log, motor_prelude in H; no_timeout_log H).
      apply in_app_or in H. destruct H as [H|H]; [now apply He|].
      unfold timeout_log in H. no_timeout_log H.
  - unfold route. unfold bind at 1. unfold attempt.
    rewrite (get_plico_motor_no_client _ h seconds Hc Ht).
    unfold timeout_log. intros H. no_timeout_log H.
  - unfold route. unfold bind at 1. unfold attempt.
    rewrite (get_plico_motor_raises _ h seconds e Hc Ht Hne).
    unfold timeout_log. intros H. no_timeout_log H.
Qed.

(** C6.  The connection to the motor is bounded by ten seconds, and only
    this one.  When the attempt made for a request to a motor route
    exceeds the bound (or reports a timeout itself), the request does not
    hang: it is answered with a 500 whose detail carries the text of the
    timeout error, "Timeout connecting to motor server on ...", after
    the provider has logged the line of the timeout.  This line tells the
    timeout from every other outcome: when the attempt ends in time,
    whatever follows (a refused body, an endpoint that returns or fails, a
    missing client, a connection error) never logs it.  The connection to
    the camera has no such bound: while it does not answer, a request to a
    camera route has no response. *)
Theorem motor_connection_is_bounded req h seconds o :
  camera_route req = false ->
  motor_answer h seconds o ->
  (times_out seconds o ->
     app req h =
       (Return (server_error ("Could not connect to motor: " ++ str timeout_error)),
        [motor_attempt; motor_call; timeout_log;
         Log ERROR ("Error connecting to motor: " ++ str timeout_error)])) /\
  (~ times_out seconds o -> ~ In timeout_log (snd (app req h))) /\
  (forall req', camera_route req' = true -> camera_answer h Pending ->
     fst (app req' h) = Pending).
Proof.
  intros Hr Hc. split; [|split].
  - intros Ht.
    destruct req as [|b|b|b| |b]; try discriminate Hr; unfold app;
      exact (motor_route_times_out _ _ h seconds o Hc Ht).
  - intros Hn.
    destruct req as [|b|b|b| |b]; try discriminate Hr; unfold app;
      apply (motor_route_in_time _ _ h seconds o Hc Hn); intros;
      auto using move_motor_no_timeout_log, get_motor_position_no_timeout_log,
        set_motor_speed_no_timeout_log.
  - intros req' Hr' Hp.
    destruct req' as [|b|b|b| |b]; try discriminate Hr'; unfold app, route;
      unfold bind at 1; unfold attempt;
      now rewrite (get_pysilico_camera_pending _ h Hp).
Qed.

(** ** Errors raised inside a provider or an endpoint *)

Lemma get_plico_motor_faults {A} (use : option MotorClient -> M A) f h seconds o :
  motor_answer h seconds o -> motor_faults f seconds o ->
  fst (get_plico_motor use h) =
    Raise (HTTPException 500 ("Could not connect to motor: " ++ str (specific_error f))).
Proof.
  intros Hc Hf. destruct f; cbn [motor_faults specific_error] in *.
  - now rewrite (get_plico_motor_times_out use h seconds o Hc Hf).
  - destruct Hf as (Ht & ->). now rewrite (get_plico_motor_no_client use h seconds Hc Ht).
Qed.

(** C10.  The specific errors raised inside a component pass through the
    blanket [except Exception] of that same component.  When the motor
    connection times out or gives no client, the [HTTPException] raised for
    it is caught by the provider, and the detail the client sees is
    "Could not connect to motor: " followed by the text of that specific
    error.  In the same way the errors "No frames received from camera" and
    "Could not encode frame to JPEG" leave [get_single_frame] inside
    "Error acquiring or encoding frame: ...". *)
Theorem specific_errors_are_rewrapped {A} (use : option MotorClient -> M A)
    f h seconds o cam h' a cause :
  motor_answer h seconds o -> motor_faults f seconds o ->
  acquires cam h' a -> frame_cause a = Some cause ->
  fst (get_plico_motor use h) =
    Raise (HTTPException 500 ("Could not connect to motor: " ++ str (specific_error f))) /\
  fst (app GET_position h) =
    Return (server_error ("Could not connect to motor: " ++ str (specific_error f))) /\
  fst (get_single_frame (Some cam) h') =
    Raise (HTTPException 500
             ("Error acquiring or encoding frame: " ++ str (HTTPException 500 cause))).
Proof.
  intros Hc Hf Ha Hcause. split; [now apply get_plico_motor_faults with seconds o|].
  split.
  - unfold app, route. unfold bind at 1. unfold attempt.
    match goal with |- context [get_plico_motor ?u h] =>
      pose proof (get_plico_motor_faults u f h seconds o Hc Hf) as H;
      destruct (get_plico_motor u h) as [r d] end.
    cbn in H. now subst r.
  - rewrite (get_single_frame_acquires cam h' a Ha).
    unfold frame_error.
    destruct a; cbn in Hcause; try discriminate; now injection Hcause as <-.
Qed.

End Properties.

(** * Further properties *)

Lemma error_logs_app d1 d2 : error_logs (d1 ++ d2) = error_logs d1 + error_logs d2.
Proof. unfold error_logs. now rewrite filter_app, length_app. Qed.

Section More_properties.
Context {L : Libraries}.

(** ** Anatomy of a route *)

(** A route behind the camera provider ends in one of four ways: the
    connection failed; the body was refused; the endpoint returned; the
    endpoint raised. *)
Lemma camera_route_anatomy {B} (validated : list validation_error + B)
    (endpoint : B -> option pysilico.Camera -> M endpoint_result) h resp d :
  route get_pysilico_camera validated endpoint h = (Return resp, d) ->
  (exists e,
     camera_answer h (Raise e) /\
     resp = server_error ("Could not connect to camera: " ++ str e) /\
     d = [camera_attempt; Call (pysilico_camera CAMERA_HOST CAMERA_PORT);
          Log ERROR ("Error connecting to camera: " ++ str e)]) \/
  (exists camera,
     camera_answer h (Return camera) /\
     ((exists errors,
         validated = inl errors /\ resp = validation_response errors /\
         d = camera_prelude ++ camera_cleanup camera) \/
      (exists request x de,
         validated = inr request /\
         endpoint request camera (extend h camera_prelude) = (Return x, de) /\
         resp = render x /\
         d = camera_prelude ++ de ++ camera_cleanup camera) \/
      (exists request e de,
         validated = inr request /\
         endpoint request camera (extend h camera_prelude) = (Raise e, de) /\
         resp = server_error ("Could not connect to camera: " ++ str e) /\
         d = camera_prelude ++ de ++
               Log ERROR ("Error connecting to camera: " ++ str e) :: camera_cleanup camera))).
Proof.
  unfold route. unfold bind at 1. unfold attempt.
  destruct (pysilico_camera_fn CAMERA_HOST CAMERA_PORT (camera_attempt :: h))
    as [camera|e|] eqn:E.
  - rewrite (get_pysilico_camera_yields _ h camera E).
    intros H. right. exists camera. split; [exact E|].
    destruct validated as [errors|request].
    + left. exists errors. cbn in H. injection H as <- <-.
      split; [reflexivity | split; [reflexivity|]]. now rewrite app_nil_r.
    + unfold bind in H.
      destruct (endpoint request camera (extend h camera_prelude)) as [[x|e|] de] eqn:Ee;
        cbn in H; try discriminate; injection H as <- <-.
      * right; left. exists request, x, de. rewrite !app_nil_r. now repeat split.
      * right; right. exists request, e, de. rewrite !app_nil_r. now repeat split.
  - rewrite (get_pysilico_camera_raises _ h e E). cbn. intros [= <- <-].
    left. exists e. now repeat split.
  - rewrite (get_pysilico_camera_pending _ h E). discriminate.
Qed.

Lemma get_plico_motor_fails {A} (use : option MotorClient -> M A) h seconds o :
  motor_answer h seconds o ->
  ~ (exists m, o = Return (Some m) /\ in_time seconds) ->
  exists cause d,
    motor_failure cause d /\
    get_plico_motor use h =
      (Raise (HTTPException 500 ("Could not connect to motor: " ++ str cause)), d).
Proof.
  intros E Hno.
  destruct (motor_answer_cases seconds o) as [Ht|(Ht & [(m & ->)|[->|(e & -> & He)]])].
  - exists timeout_error. eexists. split; [left; split; reflexivity|].
    exact (get_plico_motor_times_out use h seconds o E Ht).
  - destruct Hno. now exists m.
  - exists no_client_error. eexists. split; [right; left; split; reflexivity|].
    exact (get_plico_motor_no_client use h seconds E Ht).
  - exists e. eexists. split; [right; right; reflexivity|].
    exact (get_plico_motor_raises use h seconds e E Ht He).
Qed.

(** The same for a route behind the motor provider. *)
Lemma motor_route_anatomy {B} (validated : list validation_error + B)
    (endpoint : B -> option MotorClient -> M endpoint_result) h resp d :
  route get_plico_motor validated endpoint h = (Return resp, d) ->
  (exists cause,
     ~ (exists seconds m, motor_answer h seconds (Return (Some m)) /\ in_time seconds) /\
     motor_failure cause d /\
     resp = server_error ("Could not connect to motor: " ++ str cause)) \/
  (exists seconds m,
     motor_answer h seconds (Return (Some m)) /\ in_time seconds /\
     ((exists errors,
         validated = inl errors /\ resp = validation_response errors /\
         d = motor_prelude m) \/
      (exists request x de,
         validated = inr request /\
         endpoint request (Some m) (extend h (motor_prelude m)) = (Return x, de) /\
         resp = render x /\
         d = motor_prelude m ++ de) \/
      (exists request e de,
         validated = inr request /\
         endpoint request (Some m) (extend h (motor_prelude m)) = (Raise e, de) /\
         resp = server_error ("Could not connect to motor: " ++ str e) /\
         d = motor_prelude m ++ de ++ [Log ERROR ("Error connecting to motor: " ++ str e)]))).
Proof.
  destruct (plico_motor_motor_fn MOTOR_HOST MOTOR_PORT 1 (motor_attempt :: h))
    as [seconds o] eqn:E.
  assert (Hyes : forall s m, motor_answer h s (Return (Some m)) ->
                             s = seconds /\ o = Return (Some m))
    by (unfold motor_answer; intros s m Hs; rewrite E in Hs; now injection Hs as -> ->).
  destruct (motor_answer_cases seconds o) as [Ht|(Ht & Ho)].
  - intros H. left.
    assert (Hno : ~ (exists m, o = Return (Some m) /\ in_time seconds)).
    { intros (m & -> & Hin). unfold times_out, in_time in *.
      destruct Ht as [Ht|[Ht|Ht]]; congruence. }
    revert H. unfold route. unfold bind at 1. unfold attempt.
    match goal with |- context [get_plico_motor ?u h] =>
      destruct (get_plico_motor_fails u h seconds o E Hno) as (cause & d0 & Hf & ->) end.
    cbn. intros [= <- <-]. rewrite app_nil_r. exists cause. split; [|now split].
    intros (s & m & Hs & Hin). destruct (Hyes s m Hs) as (-> & ->). apply Hno. now exists m.
  - destruct Ho as [(m & ->)|Ho].
    + intros H. right. exists seconds, m. split; [exact E | split; [exact Ht|]].
      destruct validated as [errors|request].
      * left. exists errors.
        rewrite (motor_route_run_rejected errors endpoint h seconds m E Ht) in H.
        injection H as <- <-. now repeat split.
      * rewrite (motor_route_response request endpoint h seconds m E Ht) in H.
        destruct (endpoint request (Some m) (extend h (motor_prelude m))) as [[x|e|] de] eqn:Ee;
          try discriminate; injection H as <- <-.
        -- right; left. exists request, x, de. now repeat split.
        -- right; right. exists request, e, de. now repeat split.
    + intros H. left.
      assert (Hno : ~ (exists m, o = Return (Some m) /\ in_time seconds)).
      { intros (m & -> & _). destruct Ho as [Ho|(e & Ho & _)]; discriminate. }
      revert H. unfold route. unfold bind at 1. unfold attempt.
      match goal with |- context [get_plico_motor ?u h] =>
        destruct (get_plico_motor_fails u h seconds o E Hno) as (cause & d0 & Hf & ->) end.
      cbn. intros [= <- <-]. rewrite app_nil_r. exists cause. split; [|now split].
      intros (s & m & Hs & Hin). destruct (Hyes s m Hs) as (-> & ->). apply Hno. now exists m.
Qed.

(** ** Errors of the endpoints *)

Ltac endpoints :=
  unfold run, get_single_frame, set_exposure, set_gain, move_motor, get_motor_position,
    set_motor_speed in *.

(** X1.  Whatever goes wrong inside a command endpoint (the instrument
    raises, the handle is [None], no frame comes, the encoder fails or
    raises) the endpoint raises an [HTTPException] with status 500 and
    nothing else; its detail is the endpoint's own prefix followed by the
    text of the exception it caught, and the same text has been logged at
    the ERROR level. *)
Theorem endpoint_errors_are_500 ep camera motor h e d :
  run ep camera motor h = (Raise e, d) ->
  exists cause,
    e = HTTPException 500 (raised_as ep ++ str cause) /\
    In (Log ERROR (logged_as ep ++ str cause)) d.
Proof.
  destruct ep; endpoints; py; answers; intros [= <- <-];
    eexists; (split; [reflexivity | cbn; tauto]).
Qed.

Lemma endpoint_return_logs_no_error ep camera motor h x d :
  run ep camera motor h = (Return x, d) -> error_logs d = 0.
Proof. destruct ep; endpoints; py; answers; intros [= <- <-]; reflexivity. Qed.

(** ** The three kinds of response *)

Lemma render_status x : status_code (render x) = 200%Z.
Proof. now destruct x. Qed.

Lemma camera_route_kinds {B} (validated : list validation_error + B) endpoint h resp d :
  route get_pysilico_camera validated endpoint h = (Return resp, d) ->
  (status_code resp = 200%Z /\ (exists request, validated = inr request) /\
   exists camera, camera_answer h (Return camera)) \/
  (status_code resp = 422%Z /\ (exists errors, validated = inl errors) /\
   exists camera, camera_answer h (Return camera)) \/
  (exists detail, resp = server_error detail).
Proof.
  intros H. apply camera_route_anatomy in H.
  destruct H as [(e & _ & -> & _)|(camera & Hc & [(errors & -> & -> & _)|
                  [(request & x & de & -> & _ & -> & _)|(request & e & de & _ & _ & -> & _)]])].
  - right; right. now eexists.
  - right; left. split; [reflexivity|]. split; [now exists errors | now exists camera].
  - left. split; [apply render_status|]. split; [now exists request | now exists camera].
  - right; right. now eexists.
Qed.

Lemma motor_route_kinds {B} (validated : list validation_error + B) endpoint h resp d :
  route get_plico_motor validated endpoint h = (Return resp, d) ->
  (status_code resp = 200%Z /\ (exists request, validated = inr request) /\
   exists seconds m, motor_answer h seconds (Return (Some m)) /\ in_time seconds) \/
  (status_code resp = 422%Z /\ (exists errors, validated = inl errors) /\
   exists seconds m, motor_answer h seconds (Return (Some m)) /\ in_time seconds) \/
  (exists detail, resp = server_error detail).
Proof.
  intros H. apply motor_route_anatomy in H.
  destruct H as [(cause & _ & _ & ->)|(s & m & Hc & Ht & [(errors & -> & -> & _)|
                  [(request & x & de & -> & _ & -> & _)|(request & e & de & _ & _ & -> & _)]])].
  - right; right. now eexists.
  - right; left. split; [reflexivity|]. split; [now exists errors | now exists s, m].
  - left. split; [apply render_status|]. split; [now exists request | now exists s, m].
  - right; right. now eexists.
Qed.

(** X2.  Every response of the application is of one of three kinds: 200,
    and then the body was accepted, the instrument was connected and the
    endpoint returned; 422, and then the body was refused while the
    instrument was connected; or 500 with a JSON detail.  So a refused body
    never gives a 200, an accepted one never a 422, and no exception
    reaches the client as the plain "Internal Server Error". *)
Theorem three_kinds_of_response req h resp d :
  app req h = (Return resp, d) ->
  (status_code resp = 200%Z /\ ~ rejects req /\ connects req h) \/
  (status_code resp = 422%Z /\ rejects req /\ connects req h) \/
  (exists detail, resp = server_error detail).
Proof.
  intros H. unfold connects.
  destruct req as [|b|b|b| |b]; unfold app in H; cbn [camera_route rejects];
    (apply camera_route_kinds in H || apply motor_route_kinds in H);
    destruct H as [(Hs & (request & Hv) & Hc)|[(Hs & (errors & Hv) & Hc)|Hd]].
  all: try (right; right; exact Hd).
  all: try discriminate Hv.
  all: try (left; split; [exact Hs | split; [|exact Hc]]).
  all: try (right; left; split; [exact Hs | split; [|exact Hc]]).
  all: try tauto.
  all: try (now exists errors).
  all: intros (errors & He); rewrite He in Hv; discriminate.
Qed.

(** ** Error logs *)

Lemma camera_route_error_logs {B} (validated : list validation_error + B) endpoint h resp d :
  (forall request camera h' x de,
     endpoint request camera h' = (Return x, de) -> error_logs de = 0) ->
  route get_pysilico_camera validated endpoint h = (Return resp, d) ->
  (status_code resp = 500%Z <-> error_logs d <> 0).
Proof.
  intros Hret H. apply camera_route_anatomy in H.
  destruct H as [(e & _ & -> & ->)|(camera & Hc & [(errors & -> & -> & ->)|
                  [(request & x & de & -> & He & -> & ->)|(request & e & de & _ & _ & -> & ->)]])].
  - split; [discriminate | reflexivity].
  - split; [discriminate|]. now destruct camera.
  - rewrite render_status, !error_logs_app, (Hret _ _ _ _ _ He).
    split; [discriminate|]. now destruct camera.
  - rewrite !error_logs_app. cbn. split; [lia | reflexivity].
Qed.

Lemma motor_route_error_logs {B} (validated : list validation_error + B) endpoint h resp d :
  (forall request motor h' x de,
     endpoint request motor h' = (Return x, de) -> error_logs de = 0) ->
  route get_plico_motor validated endpoint h = (Return resp, d) ->
  (status_code resp = 500%Z <-> error_logs d <> 0).
Proof.
  intros Hret H. apply motor_route_anatomy in H.
  destruct H as [(cause & _ & Hf & ->)|(s & m & Hc & Ht & [(errors & -> & -> & ->)|
                  [(request & x & de & -> & He & -> & ->)|(request & e & de & _ & _ & -> & ->)]])].
  - split; [|reflexivity]. intros _.
    destruct Hf as [(_ & ->)|[(_ & ->)| ->]]; discriminate.
  - split; [discriminate|]. now destruct (has_close m).
  - rewrite render_status, !error_logs_app, (Hret _ _ _ _ _ He).
    split; [discriminate|]. now destruct (has_close m).
  - rewrite !error_logs_app. cbn. split; [lia | reflexivity].
Qed.

(** X3.  A request is answered with a 500 exactly when something was logged
    at the ERROR level while it was served: every server error leaves a
    line in the log, and neither a success nor a refused body does. *)
Theorem server_errors_are_logged req h resp d :
  app req h = (Return resp, d) ->
  (status_code resp = 500%Z <-> error_logs d <> 0).
Proof.
  intros H. destruct req as [|b|b|b| |b]; unfold app in H.
  - apply camera_route_error_logs in H; trivial.
    intros _ camera h' x de. exact (endpoint_return_logs_no_error Frame camera None h' x de).
  - apply camera_route_error_logs in H; trivial.
    intros s camera h' x de.
    exact (endpoint_return_logs_no_error (Set_exposure s) camera None h' x de).
  - apply camera_route_error_logs in H; trivial.
    intros s camera h' x de.
    exact (endpoint_return_logs_no_error (Set_gain s) camera None h' x de).
  - apply motor_route_error_logs in H; trivial.
    intros r motor h' x de.
    exact (endpoint_return_logs_no_error (Move_motor r) None motor h' x de).
  - apply motor_route_error_logs in H; trivial.
    intros _ motor h' x de.
    exact (endpoint_return_logs_no_error Get_motor_position None motor h' x de).
  - apply motor_route_error_logs in H; trivial.
    intros r motor h' x de.
    exact (endpoint_return_logs_no_error (Set_motor_speed r) None motor h' x de).
Qed.

(** ** A missing field *)

Lemma missing_field_error name constraint body :
  get_field name body = None ->
  validate_float_model name constraint body =
    inl [ {| loc := ["body"; name]; type_ := missing |} ].
Proof. intros H. unfold validate_float_model. now rewrite H. Qed.

(** X4.  A body that lacks the field of its model (the empty object, for
    one) is refused: with the instrument connected the request is answered
    with the 422 whose single entry names the field and says it is
    missing, and no command is sent to the instrument. *)
Theorem missing_field_is_refused req body name h :
  body_field req = Some (body, name) ->
  get_field name body = None ->
  connects req h ->
  exists d,
    app req h =
      (Return (validation_response [ {| loc := ["body"; name]; type_ := missing |} ]), d) /\
    count is_command d = 0.
Proof.
  intros Hb Hf Hc. unfold connects in Hc.
  destruct req as [|b|b|b| |b]; cbn [body_field camera_route] in *;
    try discriminate; injection Hb as <- <-; unfold app.
  - unfold ExposureSettings_validate. rewrite (missing_field_error _ _ _ Hf).
    destruct Hc as (camera & Hc). unfold camera_answer in Hc.
    rewrite rejected_camera_route, Hc.
    eexists. split; [reflexivity | now destruct camera].
  - unfold GainSettings_validate. rewrite (missing_field_error _ _ _ Hf).
    destruct Hc as (camera & Hc). unfold camera_answer in Hc.
    rewrite rejected_camera_route, Hc.
    eexists. split; [reflexivity | now destruct camera].
  - unfold MotorMoveRequest_validate. rewrite (missing_field_error _ _ _ Hf).
    destruct Hc as (s & m & Hc & Ht).
    rewrite (motor_route_run_rejected _ move_motor h s m Hc Ht).
    eexists. split; [reflexivity | now destruct (has_close m)].
  - unfold MotorSpeedRequest_validate. rewrite (missing_field_error _ _ _ Hf).
    destruct Hc as (s & m & Hc & Ht).
    rewrite (motor_route_run_rejected _ set_motor_speed h s m Hc Ht).
    eexists. split; [reflexivity | now destruct (has_close m)].
Qed.

(** ** What the client sees of a failed command *)

Lemma endpoint_raise_detail ep camera motor h e d :
  run ep camera motor h = (Raise e, d) ->
  exists cause, e = HTTPException 500 (raised_as ep ++ str cause).
Proof.
  destruct ep; endpoints; py; answers; intros [= <- <-]; eexists; reflexivity.
Qed.

Lemma camera_answer_unique h o1 o2 : camera_answer h o1 -> camera_answer h o2 -> o1 = o2.
Proof. unfold camera_answer. congruence. Qed.

(** X5.  With the instrument connected and the body accepted, a 500 can
    only come from the endpoint, and the provider wraps it on its way out:
    the detail the client reads is "Could not connect to camera: " (or
    "... to motor: ") followed by the text of the endpoint's own error,
    although the connection had succeeded. *)
Theorem endpoint_failure_reaches_client req h resp d :
  connects req h -> ~ rejects req ->
  app req h = (Return resp, d) ->
  status_code resp = 500%Z ->
  exists cause,
    resp = server_error
             (provider_says req
                ++ str (HTTPException 500 (endpoint_says req ++ str cause))).
Proof.
  intros Hc Hv H Hs. unfold connects in Hc.
  destruct req as [|b|b|b| |b]; unfold app in H;
    cbn [camera_route rejects provider_says endpoint_says] in *.
  1-3: apply camera_route_anatomy in H;
       destruct H as [(e & He & _)|(camera & _ & [(errors & Hr & _)|
                      [(request & x & de & _ & _ & -> & _)|
                       (request & e & de & _ & He & -> & _)]])];
       [ destruct Hc as (camera & Hc); pose proof (camera_answer_unique _ _ _ He Hc);
         discriminate
       | try discriminate Hr; destruct Hv; now exists errors
       | rewrite render_status in Hs; discriminate
       | ].
  4-6: apply motor_route_anatomy in H;
       destruct H as [(cause & Hno & _)|(s & m & _ & _ & [(errors & Hr & _)|
                      [(request & x & de & _ & _ & -> & _)|
                       (request & e & de & _ & He & -> & _)]])];
       [ now destruct Hno
       | try discriminate Hr; destruct Hv; now exists errors
       | rewrite render_status in Hs; discriminate
       | ].
  - destruct (endpoint_raise_detail Frame camera None _ e de He) as (cause & ->).
    now exists cause.
  - destruct (endpoint_raise_detail (Set_exposure request) camera None _ e de He)
      as (cause & ->). now exists cause.
  - destruct (endpoint_raise_detail (Set_gain request) camera None _ e de He)
      as (cause & ->). now exists cause.
  - destruct (endpoint_raise_detail (Move_motor request) None (Some m) _ e de He)
      as (cause & ->). now exists cause.
  - destruct (endpoint_raise_detail Get_motor_position None (Some m) _ e de He)
      as (cause & ->). now exists cause.
  - destruct (endpoint_raise_detail (Set_motor_speed request) None (Some m) _ e de He)
      as (cause & ->). now exists cause.
Qed.

(** ** [PUT /gain] *)

(** X6.  [PUT /gain] with a gain that is not negative (zero included) and a
    connected camera whose [set_gain] returns: the response is 200 with
    the message "Gain set to <v>"; the request calls [set_gain] once, with
    [v], between the two lines it logs, and the provider logs its clean-up
    line last. *)
Theorem gain_is_set body v h :
  reads "gain" body v -> (0 <=? v)%float = true ->
  camera_says h ("Attempting to set gain to " ++ str_float v ++ ".")
    (fun cam => pysilico.set_gain cam v) tt ->
  app (PUT_gain body) h =
    (Return (ok_response [("message", JString ("Gain set to " ++ str_float v))]),
     gain_events v).
Proof.
  intros Hr Hpos (cam & Hc & Hm). unfold app, GainSettings_validate.
  rewrite (reads_validates _ (ge 0) _ _ Hr (not_negative_passes_ge v Hpos)).
  assert (He : set_gain {| gain := v |} (Some cam) (extend h camera_prelude) =
               (Return (Dict [("message", JString ("Gain set to " ++ str_float v))]),
                [Log INFO ("Attempting to set gain to " ++ str_float v ++ ".");
                 Call (camera_set_gain v);
                 Log INFO "Gain set successfully."])).
  { unfold set_gain. cbn [gain]. py. now rewrite Hm. }
  rewrite (camera_route_run _ set_gain h cam _ _ Hc He). reflexivity.
Qed.

(** ** A camera handle that is [None] *)

Lemma null_camera_route {B} (request : B) endpoint h e d :
  camera_answer h (Return None) ->
  endpoint request None (extend h camera_prelude) = (Raise e, d) ->
  route get_pysilico_camera (inr request) endpoint h =
    (Return (server_error ("Could not connect to camera: " ++ str e)),
     camera_prelude ++ d ++ [Log ERROR ("Error connecting to camera: " ++ str e)]).
Proof.
  intros Hc He. unfold route. unfold bind at 1. unfold attempt.
  rewrite (get_pysilico_camera_yields _ h None Hc). unfold bind.
  rewrite He. unfold after, ret, camera_exit, camera_cleanup. cbn.
  now rewrite ?app_nil_r.
Qed.

(** X7.  When [pysilico.camera] returns [None] the provider reports the
    connection as successful and yields [None]; every camera route whose
    body is accepted then fails on the first method it calls on the
    handle.  The response is a 500 that carries Python's message for the
    missing attribute inside the endpoint's and the provider's wrapping;
    no command reaches an instrument and the clean-up line is not
    logged. *)
Theorem null_camera_handle req h :
  camera_route req = true -> ~ rejects req ->
  camera_answer h (Return None) ->
  exists d,
    app req h =
      (Return (server_error
                 ("Could not connect to camera: "
                    ++ str (HTTPException 500
                              (endpoint_says req ++ str (none_has_no (first_method req)))))),
       d) /\
    In (Log INFO "Camera connection successful.") d /\
    count is_command d = 0 /\ cleanups d = 0.
Proof.
  intros Hr Hv Hc.
  destruct req as [|b|b|b| |b]; try discriminate Hr; unfold app;
    cbn [rejects endpoint_says first_method] in *.
  - erewrite (null_camera_route tt (fun _ => get_single_frame) h _ _ Hc)
      by (unfold get_single_frame; py; reflexivity).
    eexists. split; [reflexivity|]. split; [cbn; tauto|]. split; reflexivity.
  - destruct (ExposureSettings_validate b) as [errors|request] eqn:E;
      [destruct Hv; now exists errors|].
    erewrite (null_camera_route request set_exposure h _ _ Hc)
      by (unfold set_exposure; py; reflexivity).
    eexists. split; [reflexivity|]. split; [cbn; tauto|]. split; reflexivity.
  - destruct (GainSettings_validate b) as [errors|request] eqn:E;
      [destruct Hv; now exists errors|].
    erewrite (null_camera_route request set_gain h _ _ Hc)
      by (unfold set_gain; py; reflexivity).
    eexists. split; [reflexivity|]. split; [cbn; tauto|]. split; reflexivity.
Qed.

(** ** The streaming loop, iteration by iteration *)

(** What the loop emits is what its iterations emit, one after the other. *)
Lemma stream_loop_iterations fuel websocket camera :
  forall h,
  exists ds,
    snd (stream_loop fuel websocket camera h) = concat ds /\
    length ds <= fuel /\
    Forall (fun d => exists h', d = snd (stream_iteration websocket camera h')) ds.
Proof.
  induction fuel as [|fuel IH]; intros h.
  - exists []. repeat split; [cbn; lia | constructor].
  - cbn [stream_loop]. unfold bind.
    destruct (stream_iteration websocket camera h) as [[c|e|] d] eqn:E.
    + destruct c.
      * destruct (IH (extend h d)) as (ds & H1 & H2 & H3).
        exists (d :: ds). unfold after.
        destruct (stream_loop fuel websocket camera (extend h d)) as [o d'].
        cbn in *. subst d'. repeat split; [lia|].
        constructor; [exists h; now rewrite E | trivial].
      * exists [d]. cbn. rewrite !app_nil_r. repeat split; [lia|].
        constructor; [exists h; now rewrite E | constructor].
      * exists [d]. cbn. rewrite !app_nil_r. repeat split; [lia|].
        constructor; [exists h; now rewrite E | constructor].
    + exists [d]. cbn. rewrite !app_nil_r. repeat split; [lia|].
      constructor; [exists h; now rewrite E | constructor].
    + exists [d]. cbn. rewrite !app_nil_r. repeat split; [lia|].
      constructor; [exists h; now rewrite E | constructor].
Qed.

Lemma count_concat_zero p ds :
  Forall (fun d => count p d = 0) ds -> count p (concat ds) = 0.
Proof.
  induction 1 as [|d ds Hd _ IH]; [reflexivity|].
  cbn [concat]. now rewrite count_app, Hd, IH.
Qed.

Ltac stream := unfold stream_iteration, stream_try, stream_except in *.

(** An iteration ends in one of three ways, and sends no close frame in
    any of them. *)
Lemma stream_iteration_exits websocket camera h :
  (fst (stream_iteration websocket camera h) = Pending \/
   fst (stream_iteration websocket camera h) = Return Continue \/
   fst (stream_iteration websocket camera h) = Return Break_disconnect \/
   fst (stream_iteration websocket camera h) = Raise missing_status) /\
  count is_close_frame (snd (stream_iteration websocket camera h)) = 0.
Proof. stream. py. answers; split; trivial; unfold missing_status; tauto. Qed.

Lemma stream_loop_no_close_frame fuel websocket camera h :
  count is_close_frame (snd (stream_loop fuel websocket camera h)) = 0.
Proof.
  destruct (stream_loop_iterations fuel websocket camera h) as (ds & -> & _ & H).
  apply count_concat_zero. eapply Forall_impl; [|exact H].
  intros d (h' & ->). apply stream_iteration_exits.
Qed.

(** X8.  The streaming loop is left in two ways only: a disconnect of
    the peer ends it quietly, and anything else that goes wrong ends it
    with the AttributeError of the status look-up.  The exit after a sent
    close frame is never taken.  As long as neither happens within the
    iterations observed, the loop is still running. *)
Theorem stream_loop_exits fuel websocket camera h :
  fst (stream_loop fuel websocket camera h) = Pending \/
  fst (stream_loop fuel websocket camera h) = Return Break_disconnect \/
  fst (stream_loop fuel websocket camera h) = Raise missing_status.
Proof.
  revert h. induction fuel as [|fuel IH]; intros h; [now left|].
  cbn [stream_loop]. unfold bind.
  destruct (stream_iteration_exits websocket camera h) as (Hi & _).
  destruct (stream_iteration websocket camera h) as [[c|e|] d]; cbn in Hi.
  - destruct c.
    + specialize (IH (extend h d)). unfold after.
      destruct (stream_loop fuel websocket camera (extend h d)) as [o d']. exact IH.
    + right. now left.
    + decompose [or] Hi; discriminate.
  - right. right. cbn. decompose [or] Hi; try discriminate. assumption.
  - now left.
Qed.

Lemma websocket_camera_stream_no_close_frame fuel websocket camera h :
  count is_close_frame (snd (websocket_camera_stream fuel websocket camera h)) = 0.
Proof.
  unfold websocket_camera_stream. py.
  destruct (accept websocket h); cbn; trivial.
  match goal with |- context [stream_loop fuel websocket camera ?h'] =>
    pose proof (stream_loop_no_close_frame fuel websocket camera h') as Hq;
    destruct (stream_loop fuel websocket camera h') as [[c|e|] d] end;
    unfold count, calls in *; cbn in *; lists;
    rewrite ?flat_map_app, ?filter_app, ?length_app, ?Hq; reflexivity.
Qed.

(** X9.  A streaming connection never sends a close frame: from the
    attempt to connect to the camera to the end of the provider, whatever
    the camera, the encoder and the channel do, [websocket.close] is not
    called. *)
Theorem stream_never_sends_close_frame fuel websocket h :
  count is_close_frame (snd (camera_stream fuel websocket h)) = 0.
Proof.
  unfold camera_stream.
  destruct (pysilico_camera_fn CAMERA_HOST CAMERA_PORT (camera_attempt :: h))
    as [camera|e|] eqn:E.
  - rewrite (get_pysilico_camera_yields _ h camera E).
    pose proof (websocket_camera_stream_no_close_frame fuel websocket camera
                  (extend h camera_prelude)) as Hq.
    destruct (websocket_camera_stream fuel websocket camera (extend h camera_prelude))
      as [[x|e|] d]; destruct camera; unfold count, calls in *; cbn in *;
      rewrite ?flat_map_app, ?filter_app, ?length_app, ?Hq; reflexivity.
  - now rewrite (get_pysilico_camera_raises _ h e E).
  - now rewrite (get_pysilico_camera_pending _ h E).
Qed.

(** One iteration reads the camera at most once and sends at most what it
    has read. *)
Lemma stream_iteration_reads_and_sends websocket camera h :
  count is_send (snd (stream_iteration websocket camera h))
    <= count is_getFutureFrames (snd (stream_iteration websocket camera h)) /\
  count is_getFutureFrames (snd (stream_iteration websocket camera h)) <= 1.
Proof. stream. py. answers; cbn; lia. Qed.

Lemma count_concat_bounds p q ds :
  Forall (fun d => count p d <= count q d /\ count q d <= 1) ds ->
  count p (concat ds) <= count q (concat ds) /\ count q (concat ds) <= length ds.
Proof.
  induction 1 as [|d ds (H1 & H2) _ (IH1 & IH2)]; [cbn; lia|].
  cbn [concat length]. rewrite !count_app. lia.
Qed.

(** X10.  In [fuel] iterations of the streaming loop the camera is asked
    for a frame at most [fuel] times, and no more messages are sent than
    frames were asked for. *)
Theorem stream_sends_at_most_what_it_reads fuel websocket camera h :
  count is_send (snd (stream_loop fuel websocket camera h))
    <= count is_getFutureFrames (snd (stream_loop fuel websocket camera h)) /\
  count is_getFutureFrames (snd (stream_loop fuel websocket camera h)) <= fuel.
Proof.
  destruct (stream_loop_iterations fuel websocket camera h) as (ds & -> & Hn & H).
  assert (Hb : Forall (fun d => count is_send d <= count is_getFutureFrames d /\
                                count is_getFutureFrames d <= 1) ds).
  { eapply Forall_impl; [|exact H].
    intros d (h' & ->). apply stream_iteration_reads_and_sends. }
  destruct (count_concat_bounds _ _ _ Hb). lia.
Qed.



(** ** What leaves a provider *)

(** X12.  Whatever is raised while the camera provider is active, by the
    connection or by the code that runs at its [yield], leaves it as an
    HTTP error 500 whose detail is "Could not connect to camera: "
    followed by the text of the cause, and the provider has logged the
    cause at the ERROR level. *)
Theorem camera_provider_raises_500 {A} (use : option pysilico.Camera -> M A) h e d :
  get_pysilico_camera use h = (Raise e, d) ->
  exists cause,
    e = HTTPException 500 ("Could not connect to camera: " ++ str cause) /\
    In (Log ERROR ("Error connecting to camera: " ++ str cause)) d.
Proof.
  destruct (pysilico_camera_fn CAMERA_HOST CAMERA_PORT (camera_attempt :: h))
    as [camera|e0|] eqn:E.
  - rewrite (get_pysilico_camera_yields _ h camera E).
    destruct (use camera (extend h camera_prelude)) as [[x|e1|] d1]; try discriminate.
    unfold after, camera_exit. intros [= <- <-]. exists e1. split; [reflexivity|].
    apply (in_or_app camera_prelude). right. apply in_or_app. right. now left.
  - rewrite (get_pysilico_camera_raises _ h e0 E). intros [= <- <-].
    exists e0. split; [reflexivity|]. cbn. tauto.
  - rewrite (get_pysilico_camera_pending _ h E). discriminate.
Qed.

(** X13.  The same holds for the motor provider, with "Could not connect
    to motor: ": the timeout and the missing client, which the provider
    raises itself as HTTP errors, leave it wrapped like any other cause. *)
Theorem motor_provider_raises_500 {A} (use : option MotorClient -> M A) h e d :
  get_plico_motor use h = (Raise e, d) ->
  exists cause,
    e = HTTPException 500 ("Could not connect to motor: " ++ str cause) /\
    In (Log ERROR ("Error connecting to motor: " ++ str cause)) d.
Proof.
  destruct (plico_motor_motor_fn MOTOR_HOST MOTOR_PORT 1 (motor_attempt :: h))
    as [seconds o] eqn:E.
  destruct (motor_answer_cases seconds o) as [Ht|(Ht & [(m & ->)|[->|(e0 & -> & He)]])].
  - rewrite (get_plico_motor_times_out _ h seconds o E Ht). intros [= <- <-].
    exists timeout_error. split; [reflexivity|]. cbn. tauto.
  - rewrite (get_plico_motor_yields _ h seconds m E Ht).
    destruct (use (Some m) (extend h (motor_prelude m))) as [[x|e1|] d1]; try discriminate.
    unfold after, motor_exit. intros [= <- <-]. exists e1. split; [reflexivity|].
    apply (in_or_app (motor_prelude m)). right. apply in_or_app. right. now left.
  - rewrite (get_plico_motor_no_client _ h seconds E Ht). intros [= <- <-].
    exists no_client_error. split; [reflexivity|]. cbn. tauto.
  - rewrite (get_plico_motor_raises _ h seconds e0 E Ht He). intros [= <- <-].
    exists e0. split; [reflexivity|]. cbn. tauto.
Qed.

(** X14.  The motor provider never yields [None]: what the code at its
    [yield] would do with a missing client has no effect on the run.  (The
    camera provider has no such check.) *)
Theorem motor_provider_never_yields_none {A} (use use' : option MotorClient -> M A) h :
  (forall m h', use (Some m) h' = use' (Some m) h') ->
  get_plico_motor use h = get_plico_motor use' h.
Proof.
  intros Hsome.
  destruct (plico_motor_motor_fn MOTOR_HOST MOTOR_PORT 1 (motor_attempt :: h))
    as [seconds o] eqn:E.
  destruct (motor_answer_cases seconds o) as [Ht|(Ht & [(m & ->)|[->|(e0 & -> & He)]])].
  - now rewrite !(get_plico_motor_times_out _ h seconds o E Ht).
  - now rewrite !(get_plico_motor_yields _ h seconds m E Ht), Hsome.
  - now rewrite !(get_plico_motor_no_client _ h seconds E Ht).
  - now rewrite !(get_plico_motor_raises _ h seconds e0 E Ht He).
Qed.

(** ** Errors in the streaming loop *)

Lemma stream_iteration_logs_cause websocket camera h e d :
  stream_iteration websocket camera h = (Raise e, d) ->
  exists cause, In (Log ERROR ("Error during WebSocket camera stream: " ++ str cause)) d.
Proof.
  stream. py. answers; intros [= <- <-]; eexists; cbn; eauto 8.
Qed.

Lemma stream_loop_logs_cause fuel websocket camera :
  forall h e d,
    stream_loop fuel websocket camera h = (Raise e, d) ->
    exists cause, In (Log ERROR ("Error during WebSocket camera stream: " ++ str cause)) d.
Proof.
  induction fuel as [|fuel IH]; intros h e d; [discriminate|].
  cbn [stream_loop]. unfold bind.
  destruct (stream_iteration websocket camera h) as [[c|e0|] d0] eqn:E.
  - destruct c; [|discriminate..]. unfold after.
    destruct (stream_loop fuel websocket camera (extend h d0)) as [o d1] eqn:E1.
    intros [= -> <-]. destruct (IH _ _ _ E1) as (cause & Hin).
    exists cause. apply in_or_app. now right.
  - intros [= <- <-]. exact (stream_iteration_logs_cause _ _ _ _ _ E).
  - discriminate.
Qed.

Lemma stream_loop_raises_missing_status fuel websocket camera :
  forall h e d,
    stream_loop fuel websocket camera h = (Raise e, d) -> e = missing_status.
Proof.
  induction fuel as [|fuel IH]; intros h e d; [discriminate|].
  cbn [stream_loop]. unfold bind.
  destruct (stream_iteration_exits websocket camera h) as (Hi & _).
  destruct (stream_iteration websocket camera h) as [[c|e0|] d0]; cbn in Hi.
  - destruct c; [|discriminate..]. unfold after.
    destruct (stream_loop fuel websocket camera (extend h d0)) as [o d1] eqn:E1.
    intros [= -> <-]. exact (IH _ _ _ E1).
  - intros [= <- <-]. decompose [or] Hi; try discriminate. congruence.
  - discriminate.
Qed.

(** X15.  An error in the streaming loop is masked.  Once the channel is
    accepted, whatever makes the handler raise (the camera, the encoder,
    the channel, a handle that is [None]), what it raises is the
    AttributeError of the status look-up; the cause itself is only
    logged.  The [finally] clause has logged the exit line, and no close
    frame was sent. *)
Theorem stream_errors_are_masked fuel websocket camera h e d :
  accept websocket h = Return tt ->
  websocket_camera_stream fuel websocket camera h = (Raise e, d) ->
  e = missing_status /\
  (exists cause, In (Log ERROR ("Error during WebSocket camera stream: " ++ str cause)) d) /\
  In (Log INFO "Exiting WebSocket camera stream.") d /\
  count is_close_frame d = 0.
Proof.
  intros Ha H.
  pose proof (websocket_camera_stream_no_close_frame fuel websocket camera h) as Hc.
  rewrite H in Hc. cbn [snd] in Hc.
  split; [|split; [|split; [|exact Hc]]]; clear Hc;
    unfold websocket_camera_stream in H; py; rewrite Ha in H; cbn in H;
    match type of H with context [stream_loop fuel websocket camera ?h'] =>
      pose proof (stream_loop_raises_missing_status fuel websocket camera h') as Hx;
      pose proof (stream_loop_logs_cause fuel websocket camera h') as Hl;
      destruct (stream_loop fuel websocket camera h') as [[c|e0|] d0] end;
    cbn in H; try discriminate; injection H as <- <-.
  - exact (Hx _ _ eq_refl).
  - destruct (Hl _ _ eq_refl) as (cause & Hin). exists cause.
    right. right. apply in_or_app. now left.
  - right. right. apply in_or_app. right. now left.
Qed.

(** ** A connection that does not answer *)

(** X16.  The connection to the camera has no timeout: while
    [pysilico.camera] does not answer, a request to a camera route has no
    response, whatever its body, and nothing is logged after the line of
    the attempt.  (The motor provider bounds its connection by ten seconds
    and answers 500.) *)
Theorem camera_connection_has_no_timeout req h :
  camera_route req = true ->
  camera_answer h Pending ->
  app req h = (Pending, [camera_attempt; Call (pysilico_camera CAMERA_HOST CAMERA_PORT)]).
Proof.
  intros Hr Hc.
  destruct req as [|b|b|b| |b]; try discriminate Hr; unfold app, route;
    unfold bind at 1; unfold attempt;
    now rewrite (get_pysilico_camera_pending _ h Hc).
Qed.

End More_properties.

(** * Concrete runs *)

(** Two frames fail, then one is delivered. *)
Lemma frame_failures_keep_streaming_witness :
  failing_run (L := gappy_lab) open_websocket gappy_camera 2 [] two_failures /\
  delivers (L := gappy_lab) open_websocket gappy_camera (extend [] two_failures) jpeg /\
  stream_loop (L := gappy_lab) 3 open_websocket (Some gappy_camera) [] =
    (Pending, two_failures ++ delivery jpeg).
Proof.
  assert (Hrun : failing_run (L := gappy_lab) open_websocket gappy_camera 2 [] two_failures).
  { apply (run_step (L := gappy_lab) open_websocket gappy_camera 1 []
             [Call (camera_getFutureFrames 1);
              Log WARNING "No frames received in WebSocket stream loop."]
             [Call (camera_getFutureFrames 1);
              Log ERROR "Could not encode frame to JPEG in WebSocket stream."]).
    - left. reflexivity.
    - reflexivity.
    - apply (run_step (L := gappy_lab) open_websocket gappy_camera 0 _
               [Call (camera_getFutureFrames 1);
                Log ERROR "Could not encode frame to JPEG in WebSocket stream."] []).
      + right. exists blank, [], []. split; reflexivity.
      + reflexivity.
      + apply run_nil. }
  assert (Hj : delivers (L := gappy_lab) open_websocket gappy_camera
                 (extend [] two_failures) jpeg).
  { exists zeros, []. repeat split; reflexivity. }
  split; [exact Hrun | split; [exact Hj|]].
  exact (proj2 (proj2 (proj2
           (frame_failures_keep_streaming (L := gappy_lab) open_websocket gappy_camera 2 [] _
              Hrun))) 0 jpeg Hj).
Defined.

(** C2 (the code departs from the claim).  The camera raises on a read: the
    second [except] clause logs the error, then fails on
    [status.WS_500_INTERNAL_ERROR]; no close frame is sent, and what leaves
    the loop is the [AttributeError]. *)
Theorem stream_error_sends_no_close_frame :
  stream_iteration (L := unplugged_lab) open_websocket (Some unplugged_camera) [] =
    (Raise (PyError "AttributeError"
              "module 'fastapi.status' has no attribute 'WS_500_INTERNAL_ERROR'"),
     [Call (camera_getFutureFrames 1);
      Log ERROR "Error during WebSocket camera stream: camera unplugged"]) /\
  count is_close_frame (snd (camera_stream (L := unplugged_lab) 3 open_websocket [])) = 0 /\
  fst (camera_stream (L := unplugged_lab) 3 open_websocket []) =
    Raise (HTTPException 500
             "Could not connect to camera: module 'fastapi.status' has no attribute 'WS_500_INTERNAL_ERROR'").
Proof. repeat split; reflexivity. Qed.

(** The camera misses a frame, gives one that cannot be encoded, then a
    good one; the peer is gone when this one is sent. *)
Lemma disconnect_ends_stream_witness :
  camera_answer (L := gappy_lab) [] (Return (Some gappy_camera)) /\
  accept closed_websocket (extend [] camera_prelude) = Return tt /\
  live_run (L := gappy_lab) closed_websocket gappy_camera 2
    (extend [] (camera_prelude ++ stream_prelude)) (missed ++ not_encoded) /\
  peer_gone (L := gappy_lab) closed_websocket gappy_camera
    (extend [] (camera_prelude ++ stream_prelude ++ missed ++ not_encoded)) jpeg /\
  2 < 4 /\
  camera_stream (L := gappy_lab) 4 closed_websocket [] =
    (Return tt,
     camera_prelude ++ stream_prelude ++ ((missed ++ not_encoded) ++ farewell jpeg) ++
       [Log INFO "Exiting WebSocket camera stream."; cleanup_log]) /\
  count is_close_frame (snd (camera_stream (L := gappy_lab) 4 closed_websocket [])) = 0 /\
  count is_release (snd (camera_stream (L := gappy_lab) 4 closed_websocket [])) = 0 /\
  cleanups (snd (camera_stream (L := gappy_lab) 4 closed_websocket [])) = 1.
Proof.
  assert (Hc : camera_answer (L := gappy_lab) [] (Return (Some gappy_camera)))
    by reflexivity.
  assert (Ha : accept closed_websocket (extend [] camera_prelude) = Return tt)
    by reflexivity.
  assert (Hrun : live_run (L := gappy_lab) closed_websocket gappy_camera 2
                   (extend [] (camera_prelude ++ stream_prelude)) (missed ++ not_encoded)).
  { apply (live_missed (L := gappy_lab) closed_websocket gappy_camera 1 _ not_encoded).
    - reflexivity.
    - apply (live_not_encoded (L := gappy_lab) closed_websocket gappy_camera 0 _ []).
      + exists blank, [], []. split; reflexivity.
      + apply live_nil. }
  assert (Hgone : peer_gone (L := gappy_lab) closed_websocket gappy_camera
                    (extend [] (camera_prelude ++ stream_prelude ++ missed ++ not_encoded))
                    jpeg).
  { exists zeros, []. repeat split; reflexivity. }
  assert (Hn : 2 < 4) by lia.
  repeat (split; [assumption|]).
  exact (disconnect_ends_stream (L := gappy_lab) closed_websocket gappy_camera 2 []
           (missed ++ not_encoded) jpeg 4 Hc Ha Hrun Hgone Hn).
Defined.

(** The claim of C3 at the failing input: the peer is gone at the first
    send, the endpoint returns, and no release operation has been called
    on the handle. *)
Lemma disconnect_releases_nothing :
  fst (camera_stream (L := steady_lab) 4 closed_websocket []) = Return tt /\
  count is_release (snd (camera_stream (L := steady_lab) 4 closed_websocket [])) <> 1.
Proof. split; [reflexivity | discriminate]. Qed.

(** The claim of C4 at the failing input: a move succeeds on a motor
    client that has a [close] method, and the request ends without having
    called it. *)
Lemma move_releases_nothing :
  has_close mock_motor = true /\
  status_code_of (fst (app (L := lab) (PUT_move good_move) [])) = Some 200%Z /\
  count is_release (snd (app (L := lab) (PUT_move good_move) [])) <> 1.
Proof. repeat split; discriminate. Qed.

(** C5 (the code departs from the claim).  [pysilico.camera] returns [None]:
    the camera provider yields it all the same, and the endpoint runs with
    it ("Acquiring single frame from camera."); the error the client gets
    is that of the endpoint, wrapped by the provider.  The motor provider,
    in the same situation, raises before it yields. *)
Theorem camera_null_handle_reaches_endpoint :
  app (L := null_lab) GET_frame [] =
    (Return {| status_code := 500; media_type := "application/json";
               body := JsonBody [("detail", JString
                 "Could not connect to camera: 500: Error acquiring or encoding frame: 'NoneType' object has no attribute 'getFrameForDisplay'")] |},
     [Log INFO "Attempting to connect to camera at localhost:7100";
      Call (pysilico_camera "localhost" 7100);
      Log INFO "Camera connection successful.";
      Log INFO "Acquiring single frame from camera.";
      Log ERROR "Error acquiring or encoding frame: 'NoneType' object has no attribute 'getFrameForDisplay'";
      Log ERROR "Error connecting to camera: 500: Error acquiring or encoding frame: 'NoneType' object has no attribute 'getFrameForDisplay'"]) /\
  app (L := null_lab) GET_position [] =
    (Return {| status_code := 500; media_type := "application/json";
               body := JsonBody [("detail", JString
                 "Could not connect to motor: 500: Failed to obtain motor client from server. Check server logs.")] |},
     [Log INFO "Attempting to connect to motor at localhost:7200";
      Call (plico_motor_motor "localhost" 7200 1);
      Log ERROR "plico_motor.motor() returned None. Check plico_motor_server logs for details.";
      Log ERROR "Error connecting to motor: 500: Failed to obtain motor client from server. Check server logs."]).
Proof. split; reflexivity. Qed.

(** The motor server answers after eleven seconds; in another run it
    refuses the connection at once. *)
Lemma motor_connection_is_bounded_witness :
  motor_answer (L := slow_lab) [] 11%Q (Return (Some mock_motor)) /\
  times_out 11%Q (Return (Some mock_motor)) /\
  app (L := slow_lab) GET_position [] =
    (Return (server_error
       "Could not connect to motor: 500: Timeout connecting to motor server on localhost:7200. Server might be unresponsive."),
     [Log INFO "Attempting to connect to motor at localhost:7200";
      Call (plico_motor_motor "localhost" 7200 1);
      Log ERROR "Timeout while attempting to connect to motor at localhost:7200";
      Log ERROR "Error connecting to motor: 500: Timeout connecting to motor server on localhost:7200. Server might be unresponsive."]) /\
  motor_answer (L := refused_lab) [] 0.5%Q
    (Raise (PyError "ConnectionRefusedError" "[Errno 111] Connection refused")) /\
  ~ times_out 0.5%Q (Raise (PyError "ConnectionRefusedError" "[Errno 111] Connection refused")) /\
  ~ In timeout_log (snd (app (L := refused_lab) GET_position [])).
Proof.
  assert (Hc : motor_answer (L := slow_lab) [] 11%Q (Return (Some mock_motor)))
    by reflexivity.
  assert (Ht : times_out 11%Q (Return (Some mock_motor))) by (left; reflexivity).
  assert (Hc' : motor_answer (L := refused_lab) [] 0.5%Q
                  (Raise (PyError "ConnectionRefusedError" "[Errno 111] Connection refused")))
    by reflexivity.
  assert (Ht' : ~ times_out 0.5%Q
                  (Raise (PyError "ConnectionRefusedError" "[Errno 111] Connection refused")))
    by (intros [H|[H|H]]; discriminate H).
  split; [exact Hc | split; [exact Ht | split; [|split; [exact Hc' | split; [exact Ht'|]]]]].
  - exact (proj1 (motor_connection_is_bounded (L := slow_lab) GET_position [] 11%Q _
                    eq_refl Hc) Ht).
  - exact (proj1 (proj2 (motor_connection_is_bounded (L := refused_lab) GET_position [] 0.5%Q _
                           eq_refl Hc')) Ht').
Defined.

(** What the client reads on the timeout, and on the refused connection. *)
Example timeout_and_refusal :
  fst (app (L := slow_lab) GET_position []) =
    Return {| status_code := 500; media_type := "application/json";
              body := JsonBody [("detail", JString
                "Could not connect to motor: 500: Timeout connecting to motor server on localhost:7200. Server might be unresponsive.")] |} /\
  fst (app (L := refused_lab) GET_position []) =
    Return {| status_code := 500; media_type := "application/json";
              body := JsonBody [("detail", JString
                "Could not connect to motor: [Errno 111] Connection refused")] |}.
Proof. split; reflexivity. Qed.

(** An exposure of -1 with the camera of the test suite. *)
Lemma rejected_input_sends_no_command_witness :
  violates_constraint (L := lab) (PUT_exposure bad_exposure) /\
  connects (L := lab) (PUT_exposure bad_exposure) [] /\
  count is_command (snd (app (L := lab) (PUT_exposure bad_exposure) [])) = 0 /\
  count is_connection (snd (app (L := lab) (PUT_exposure bad_exposure) [])) = 1 /\
  exists err,
    fst (app (L := lab) (PUT_exposure bad_exposure) []) = Return (validation_response [err]) /\
    status_code_of (fst (app (L := lab) (PUT_exposure bad_exposure) [])) = Some 422%Z.
Proof.
  assert (Hv : violates_constraint (L := lab) (PUT_exposure bad_exposure)).
  { exists bad_exposure, "exposure_time_us", (fun x => (x <=? 0)%float), (JNumber (-1)).
    repeat split; reflexivity. }
  assert (Hc : connects (L := lab) (PUT_exposure bad_exposure) [])
    by (exists (Some good_camera); reflexivity).
  split; [exact Hv | split; [exact Hc|]].
  pose proof (rejected_input_sends_no_command (L := lab) _ [] Hv) as (H1 & H2 & H3 & _).
  exact (conj H1 (conj H2 (H3 Hc))).
Defined.

(** What the request emits and answers. *)
Example rejected_exposure :
  app (L := lab) (PUT_exposure bad_exposure) [] =
    (Return (validation_response
               [{| loc := ["body"; "exposure_time_us"]; type_ := greater_than 0 |}]),
     camera_prelude ++ [cleanup_log]).
Proof. reflexivity. Qed.

(** C7, as stated, fails: the exposure of -1 is rejected with a 422 only
    after the camera has been connected, and with a 500 when the camera
    cannot be reached. *)
Lemma rejected_input_connects_first :
  violates_constraint (L := lab) (PUT_exposure bad_exposure) /\
  violates_constraint (L := dark_lab) (PUT_exposure bad_exposure) /\
  status_code_of (fst (app (L := lab) (PUT_exposure bad_exposure) [])) = Some 422%Z /\
  In (Call (pysilico_camera CAMERA_HOST CAMERA_PORT))
     (snd (app (L := lab) (PUT_exposure bad_exposure) [])) /\
  status_code_of (fst (app (L := dark_lab) (PUT_exposure bad_exposure) [])) = Some 500%Z.
Proof.
  assert (Hv : forall L, float_field (Libraries := L) = strict_float ->
                 violates_constraint (L := L) (PUT_exposure bad_exposure)).
  { intros L HL.
    exists bad_exposure, "exposure_time_us", (fun x => (x <=? 0)%float), (JNumber (-1)).
    rewrite HL. repeat split; reflexivity. }
  split; [now apply Hv | split; [now apply Hv|]].
  split; [reflexivity | split; [|reflexivity]].
  right; left; reflexivity.
Qed.

(** The camera of the test suite returns its frame of zeros. *)
Lemma frame_response_witness :
  encoder_sound (L := lab) /\
  camera_answer (L := lab) [] (Return (Some good_camera)) /\
  acquires (L := lab) good_camera (extend [] camera_prelude) (Encoded jpeg) /\
  fst (app (L := lab) GET_frame []) =
    Return {| status_code := 200; media_type := "image/jpeg"; body := BytesBody jpeg |} /\
  jpeg <> [].
Proof.
  assert (Hs : encoder_sound (L := lab)).
  { intros ext [|row frame] buffer; cbn; intros [= <-]; discriminate. }
  assert (Hc : camera_answer (L := lab) [] (Return (Some good_camera))) by reflexivity.
  assert (Ha : acquires (L := lab) good_camera (extend [] camera_prelude) (Encoded jpeg)).
  { exists mock_frame_object, zeros. repeat split; reflexivity. }
  split; [exact Hs | split; [exact Hc | split; [exact Ha|]]].
  exact (frame_response (L := lab) [] good_camera (Encoded jpeg) Hs Hc Ha).
Defined.

(** A camera without a frame, and a frame that cannot be encoded. *)
Example frame_failures :
  fst (app (L := mock_libraries (Return (Some empty_camera)) (0.5%Q, Return None)) GET_frame [])
    = Return (server_error
        "Could not connect to camera: 500: Error acquiring or encoding frame: 500: No frames received from camera").
Proof. reflexivity. Qed.

(** [PUT /move] with position 50.0 on the motor of the test suite. *)
Lemma successful_command_witness :
  succeeds (L := lab) (Move good_move 50) [] /\
  exists d,
    app (L := lab) (PUT_move good_move) [] =
      (Return (ok_response [("message", JString "Motor moving to position: 50.0")]), d) /\
    filter is_command (calls d) = [motor_move 50].
Proof.
  assert (H : succeeds (L := lab) (Move good_move 50) []).
  { split.
    - exists (JNumber 50). split; reflexivity.
    - exists 0.5%Q, mock_motor. repeat split; reflexivity. }
  split; [exact H|].
  exact (successful_command (L := lab) (Move good_move 50) [] H).
Defined.

(** The other three commands on the doubles of the test suite. *)
Example successful_commands :
  fst (app (L := lab) GET_position []) = Return (ok_response [("position", JNumber 10)]) /\
  fst (app (L := lab) (PUT_exposure good_exposure) []) =
    Return (ok_response [("message", JString "Exposure time set to 5000.0 us")]) /\
  fst (app (L := lab) (PUT_speed good_speed) []) =
    Return (ok_response [("message", JString "Motor speed set to: 100.0")]).
Proof. repeat split; reflexivity. Qed.

(** The motor server answers after eleven seconds; the camera has no frame. *)
Lemma specific_errors_are_rewrapped_witness :
  motor_answer (L := slow_lab) [] 11%Q (Return (Some mock_motor)) /\
  motor_faults Timed_out 11%Q (Return (Some mock_motor)) /\
  acquires (L := slow_lab) empty_camera [] No_frame /\
  frame_cause No_frame = Some "No frames received from camera" /\
  fst (app (L := slow_lab) GET_position []) =
    Return (server_error
      "Could not connect to motor: 500: Timeout connecting to motor server on localhost:7200. Server might be unresponsive.") /\
  fst (get_single_frame (L := slow_lab) (Some empty_camera) []) =
    Raise (HTTPException 500
      "Error acquiring or encoding frame: 500: No frames received from camera").
Proof.
  assert (Hc : motor_answer (L := slow_lab) [] 11%Q (Return (Some mock_motor))) by reflexivity.
  assert (Hf : motor_faults Timed_out 11%Q (Return (Some mock_motor))) by (left; reflexivity).
  assert (Ha : acquires (L := slow_lab) empty_camera [] No_frame) by reflexivity.
  assert (Hx : frame_cause No_frame = Some "No frames received from camera") by reflexivity.
  repeat (split; [assumption|]).
  exact (proj2 (specific_errors_are_rewrapped (L := slow_lab)
                  (fun _ => ret tt) Timed_out [] 11%Q _ empty_camera [] No_frame _
                  Hc Hf Ha Hx)).
Defined.

(** * Further concrete runs *)

(** The motor is at its limit switch when it is told to move. *)
Lemma endpoint_errors_are_500_witness :
  run (L := stuck_lab) (Move_motor {| position := 50 |}) None (Some stuck_motor) [] =
    (Raise (HTTPException 500 "Could not move motor: limit switch reached"), stuck_events) /\
  exists cause,
    HTTPException 500 "Could not move motor: limit switch reached" =
      HTTPException 500 ("Could not move motor: " ++ str (Libraries := stuck_lab) cause) /\
    In (Log ERROR ("Error moving motor: " ++ str (Libraries := stuck_lab) cause)) stuck_events.
Proof.
  assert (H : run (L := stuck_lab) (Move_motor {| position := 50 |}) None (Some stuck_motor) [] =
    (Raise (HTTPException 500 "Could not move motor: limit switch reached"), stuck_events))
    by reflexivity.
  split; [exact H|].
  exact (endpoint_errors_are_500 (L := stuck_lab) _ _ _ _ _ _ H).
Defined.

(** An exposure of -1 is the second kind of response. *)
Lemma three_kinds_of_response_witness :
  app (L := lab) (PUT_exposure bad_exposure) [] =
    (Return (validation_response
               [{| loc := ["body"; "exposure_time_us"]; type_ := greater_than 0 |}]),
     camera_prelude ++ [cleanup_log]) /\
  rejects (L := lab) (PUT_exposure bad_exposure) /\
  connects (L := lab) (PUT_exposure bad_exposure) [].
Proof.
  assert (Ha : app (L := lab) (PUT_exposure bad_exposure) [] =
    (Return (validation_response
               [{| loc := ["body"; "exposure_time_us"]; type_ := greater_than 0 |}]),
     camera_prelude ++ [cleanup_log])) by reflexivity.
  split; [exact Ha|].
  destruct (three_kinds_of_response (L := lab) _ _ _ _ Ha) as [(Hs & _)|[(_ & H)|(detail & Hd)]].
  - discriminate Hs.
  - exact H.
  - discriminate Hd.
Defined.

(** The camera server cannot be reached: a 500, and one line at the ERROR
    level. *)
Lemma server_errors_are_logged_witness :
  app (L := dark_lab) GET_frame [] =
    (Return dark_response,
     [camera_attempt; Call (pysilico_camera CAMERA_HOST CAMERA_PORT);
      Log ERROR "Error connecting to camera: [Errno 111] Connection refused"]) /\
  error_logs
    [camera_attempt; Call (pysilico_camera CAMERA_HOST CAMERA_PORT);
     Log ERROR "Error connecting to camera: [Errno 111] Connection refused"] <> 0.
Proof.
  assert (Ha : app (L := dark_lab) GET_frame [] =
    (Return dark_response,
     [camera_attempt; Call (pysilico_camera CAMERA_HOST CAMERA_PORT);
      Log ERROR "Error connecting to camera: [Errno 111] Connection refused"]))
    by reflexivity.
  split; [exact Ha|].
  exact (proj1 (server_errors_are_logged (L := dark_lab) _ _ _ _ Ha) eq_refl).
Defined.

(** [PUT /gain] with the empty object. *)
Lemma missing_field_is_refused_witness :
  body_field (PUT_gain empty_body) = Some (empty_body, "gain") /\
  get_field "gain" empty_body = None /\
  connects (L := lab) (PUT_gain empty_body) [] /\
  app (L := lab) (PUT_gain empty_body) [] =
    (Return (validation_response [{| loc := ["body"; "gain"]; type_ := missing |}]),
     camera_prelude ++ [cleanup_log]) /\
  count is_command (camera_prelude ++ [cleanup_log]) = 0.
Proof.
  assert (Hc : connects (L := lab) (PUT_gain empty_body) [])
    by (exists (Some good_camera); reflexivity).
  assert (Ha : app (L := lab) (PUT_gain empty_body) [] =
    (Return (validation_response [{| loc := ["body"; "gain"]; type_ := missing |}]),
     camera_prelude ++ [cleanup_log])) by reflexivity.
  split; [reflexivity | split; [reflexivity | split; [exact Hc | split; [exact Ha|]]]].
  destruct (missing_field_is_refused (L := lab) (PUT_gain empty_body) empty_body "gain"
              [] eq_refl eq_refl Hc) as (d & Hd & Hn).
  rewrite Ha in Hd. injection Hd as <-. exact Hn.
Defined.

(** The stuck motor, seen by the client of [PUT /move]. *)
Lemma endpoint_failure_reaches_client_witness :
  connects (L := stuck_lab) (PUT_move good_move) [] /\
  ~ rejects (L := stuck_lab) (PUT_move good_move) /\
  fst (app (L := stuck_lab) (PUT_move good_move) []) = Return stuck_response /\
  exists cause,
    stuck_response =
      server_error
        ("Could not connect to motor: "
           ++ str (Libraries := stuck_lab)
                (HTTPException 500 ("Could not move motor: " ++ str (Libraries := stuck_lab) cause))).
Proof.
  assert (Hc : connects (L := stuck_lab) (PUT_move good_move) [])
    by (exists 0.5%Q, stuck_motor; split; reflexivity).
  assert (Hv : ~ rejects (L := stuck_lab) (PUT_move good_move))
    by (intros (errors & He); discriminate He).
  split; [exact Hc | split; [exact Hv | split; [reflexivity|]]].
  exact (endpoint_failure_reaches_client (L := stuck_lab) (PUT_move good_move) []
           stuck_response _ Hc Hv eq_refl eq_refl).
Defined.

(** A gain of 2.5 on the camera of the test suite. *)
Lemma gain_is_set_witness :
  reads (L := lab) "gain" good_gain 2.5 /\
  camera_says (L := lab) [] "Attempting to set gain to 2.5."
    (fun cam => pysilico.set_gain cam 2.5) tt /\
  app (L := lab) (PUT_gain good_gain) [] =
    (Return (ok_response [("message", JString "Gain set to 2.5")]),
     gain_events (L := lab) 2.5).
Proof.
  assert (Hr : reads (L := lab) "gain" good_gain 2.5)
    by (exists (JNumber 2.5); split; reflexivity).
  assert (Hs : camera_says (L := lab) [] "Attempting to set gain to 2.5."
                 (fun cam => pysilico.set_gain cam 2.5) tt)
    by (exists good_camera; split; reflexivity).
  split; [exact Hr | split; [exact Hs|]].
  exact (gain_is_set (L := lab) good_gain 2.5 [] Hr eq_refl Hs).
Defined.

(** [pysilico.camera] returns [None] and the exposure is to be set. *)
Lemma null_camera_handle_witness :
  ~ rejects (L := null_lab) (PUT_exposure good_exposure) /\
  camera_answer (L := null_lab) [] (Return None) /\
  exists d,
    app (L := null_lab) (PUT_exposure good_exposure) [] =
      (Return (server_error
         "Could not connect to camera: 500: Could not set exposure time: 'NoneType' object has no attribute 'setExposureTime'"),
       d) /\
    In (Log INFO "Camera connection successful.") d /\
    count is_command d = 0 /\ cleanups d = 0.
Proof.
  assert (Hv : ~ rejects (L := null_lab) (PUT_exposure good_exposure))
    by (intros (errors & He); discriminate He).
  assert (Hc : camera_answer (L := null_lab) [] (Return None)) by reflexivity.
  split; [exact Hv | split; [exact Hc|]].
  exact (null_camera_handle (L := null_lab) (PUT_exposure good_exposure) [] eq_refl Hv Hc).
Defined.


(** The camera server cannot be reached. *)
Lemma camera_provider_raises_500_witness :
  get_pysilico_camera (L := dark_lab) (fun _ => ret tt) [] =
    (Raise (HTTPException 500 "Could not connect to camera: [Errno 111] Connection refused"),
     [camera_attempt; Call (pysilico_camera CAMERA_HOST CAMERA_PORT);
      Log ERROR "Error connecting to camera: [Errno 111] Connection refused"]) /\
  exists cause,
    HTTPException 500 "Could not connect to camera: [Errno 111] Connection refused" =
      HTTPException 500 ("Could not connect to camera: " ++ str (Libraries := dark_lab) cause) /\
    In (Log ERROR ("Error connecting to camera: " ++ str (Libraries := dark_lab) cause))
       [camera_attempt; Call (pysilico_camera CAMERA_HOST CAMERA_PORT);
        Log ERROR "Error connecting to camera: [Errno 111] Connection refused"].
Proof.
  assert (H : get_pysilico_camera (L := dark_lab) (fun _ => ret tt) [] =
    (Raise (HTTPException 500 "Could not connect to camera: [Errno 111] Connection refused"),
     [camera_attempt; Call (pysilico_camera CAMERA_HOST CAMERA_PORT);
      Log ERROR "Error connecting to camera: [Errno 111] Connection refused"]))
    by reflexivity.
  split; [exact H|].
  exact (camera_provider_raises_500 (L := dark_lab) _ _ _ _ H).
Defined.

(** The stuck motor: the endpoint's error leaves the provider wrapped. *)
Lemma motor_provider_raises_500_witness :
  get_plico_motor (L := stuck_lab) (move_motor (L := stuck_lab) {| position := 50 |}) [] =
    (Raise (HTTPException 500
              "Could not connect to motor: 500: Could not move motor: limit switch reached"),
     motor_prelude stuck_motor ++ stuck_events ++
       [Log ERROR "Error connecting to motor: 500: Could not move motor: limit switch reached"]) /\
  exists cause,
    HTTPException 500
      "Could not connect to motor: 500: Could not move motor: limit switch reached" =
      HTTPException 500 ("Could not connect to motor: " ++ str (Libraries := stuck_lab) cause) /\
    In (Log ERROR ("Error connecting to motor: " ++ str (Libraries := stuck_lab) cause))
       (motor_prelude stuck_motor ++ stuck_events ++
          [Log ERROR "Error connecting to motor: 500: Could not move motor: limit switch reached"]).
Proof.
  assert (H : get_plico_motor (L := stuck_lab)
                (move_motor (L := stuck_lab) {| position := 50 |}) [] =
    (Raise (HTTPException 500
              "Could not connect to motor: 500: Could not move motor: limit switch reached"),
     motor_prelude stuck_motor ++ stuck_events ++
       [Log ERROR "Error connecting to motor: 500: Could not move motor: limit switch reached"]))
    by reflexivity.
  split; [exact H|].
  exact (motor_provider_raises_500 (L := stuck_lab) _ _ _ _ H).
Defined.

(** [plico_motor.motor] returns [None]: the careful consumer and the
    careless one see the same run. *)
Lemma motor_provider_never_yields_none_witness :
  (forall m h', careful_consumer (Some m) h' = careless_consumer (Some m) h') /\
  get_plico_motor (L := null_lab) careful_consumer [] =
    get_plico_motor (L := null_lab) careless_consumer [].
Proof.
  assert (H : forall m h', careful_consumer (Some m) h' = careless_consumer (Some m) h')
    by reflexivity.
  split; [exact H|].
  exact (motor_provider_never_yields_none (L := null_lab) careful_consumer careless_consumer
           [] H).
Defined.

(** The camera is unplugged while it streams. *)
Lemma stream_errors_are_masked_witness :
  accept open_websocket [] = Return tt /\
  websocket_camera_stream (L := unplugged_lab) 3 open_websocket (Some unplugged_camera) [] =
    (Raise missing_status, unplugged_events) /\
  (exists cause,
     In (Log ERROR ("Error during WebSocket camera stream: " ++ str (Libraries := unplugged_lab) cause))
        unplugged_events) /\
  In (Log INFO "Exiting WebSocket camera stream.") unplugged_events /\
  count is_close_frame unplugged_events = 0.
Proof.
  assert (H : websocket_camera_stream (L := unplugged_lab) 3 open_websocket
                (Some unplugged_camera) [] = (Raise missing_status, unplugged_events))
    by reflexivity.
  split; [reflexivity | split; [exact H|]].
  exact (proj2 (stream_errors_are_masked (L := unplugged_lab) 3 open_websocket
                  (Some unplugged_camera) [] _ _ eq_refl H)).
Defined.

(** The camera server does not answer a request for a frame. *)
Lemma camera_connection_has_no_timeout_witness :
  camera_answer (L := hanging_lab) [] Pending /\
  app (L := hanging_lab) GET_frame [] =
    (Pending, [camera_attempt; Call (pysilico_camera CAMERA_HOST CAMERA_PORT)]) /\
  fst (app (L := hanging_lab) GET_position []) =
    Return (server_error
      "Could not connect to motor: 500: Timeout connecting to motor server on localhost:7200. Server might be unresponsive.").
Proof.
  assert (Hc : camera_answer (L := hanging_lab) [] Pending) by reflexivity.
  split; [exact Hc | split; [|reflexivity]].
  exact (camera_connection_has_no_timeout (L := hanging_lab) GET_frame [] eq_refl Hc).
Defined.
